(** * Material inventory ledger of DivyaSwastikBackend

    A shallow embedding of the material routes (POST /add, POST /take,
    PUT /status/:matCode, DELETE /:id, DELETE /by-code/:matCode), of the
    material schema with the validators that [save()] runs, and of the
    monthly material report (GET /material-report/:projectId with its
    helper [getMonthRange]).

    Conventions of the embedding.
    - A [Number] holding a quantity is an integer, stored as [Z].  The
      doubles of the code are exact on the integers up to 2^53 and round
      beyond them and on fractions, so a property that rests on the result
      of an addition or a subtraction of the code carries the bound
      [JS.isSafeInteger] on the numbers involved.  The value
      [Number(req.body.quantity)] of a take request may also be NaN.
    - A [Date] is its time value: milliseconds since the epoch, as [Z].
      The constructor [new Date(y, m, d, ...)] reads its fields as local
      time and resolves them with the offset in force at that local time;
      the range of TimeClip is stated where a property depends on it
      ([JS.inTimeRange]).  A request reads the clock as often as the code
      evaluates [new Date()]: [clock env k] is its reading number [k].
    - The collection is the list of its documents in insertion order; the
      store keeps [_id] unique and refuses a duplicate key.
    - Each request runs alone (one writer at a time).  [save()] runs the
      validators of the schema and throws when one fails, and the handler
      answers 500; [updateMany] runs none.  Timestamps and version keys kept
      by the ODM are outside the embedded code.

    Further on, the routes that read the ledger (GET /total-availability,
    GET /total-consumed), the one-time password of a user with the routes
    that issue, check and clear it, the attendance report and the marking
    of attendance, and the user routes with their pages.  There the
    verdicts of the request validators, of [adminAuth] and of the password
    comparison come with the request. *)

From Stdlib Require Import ZArith List String Bool Lia Permutation Sorted.
From Stdlib Require Import DecimalString QArith.
Import ListNotations.
Open Scope Z_scope.

(** ** JavaScript numbers and dates *)

Module JS.

(** The result of [Number(v)] on a request field: an integer or NaN (a
    fraction is outside the embedding, and so is what the doubles make of
    an integer beyond [isSafeInteger] below). *)
Inductive Num :=
| Fin (z : Z)
| NaN.

(** [a <= b] and [a < b] on numbers: false as soon as one side is NaN. *)
Definition leb (a b : Num) : bool :=
  match a, b with
  | Fin x, Fin y => x <=? y
  | _, _ => false
  end.

Definition ltb (a b : Num) : bool :=
  match a, b with
  | Fin x, Fin y => x <? y
  | _, _ => false
  end.

Definition sub (a b : Num) : Num :=
  match a, b with
  | Fin x, Fin y => Fin (x - y)
  | _, _ => NaN
  end.

(** [Number.isSafeInteger]: the integers on which the sums and differences
    of doubles are the sums and differences of integers. *)
Definition isSafeInteger (z : Z) : Prop := Z.abs z <= 9007199254740991.

(** Time values, after ECMAScript (Day Number and Time within Day,
    Year Number, MakeTime, MakeDay, MakeDate). *)
Definition Date := Z.

Definition msPerDay : Z := 86400000.

Definition Day (t : Date) : Z := t / msPerDay.

Definition DayFromYear (y : Z) : Z :=
  365 * (y - 1970) + (y - 1969) / 4 - (y - 1901) / 100 + (y - 1601) / 400.

Definition InLeapYear (y : Z) : bool :=
  (y mod 4 =? 0) && (negb (y mod 100 =? 0) || (y mod 400 =? 0)).

(** Day within the year of the first day of month [mn] (0 = January). *)
Definition monthStart (mn : Z) (leap : bool) : Z :=
  let l := if leap then 1 else 0 in
  match mn with
  | 0 => 0
  | 1 => 31
  | 2 => 59 + l
  | 3 => 90 + l
  | 4 => 120 + l
  | 5 => 151 + l
  | 6 => 181 + l
  | 7 => 212 + l
  | 8 => 243 + l
  | 9 => 273 + l
  | 10 => 304 + l
  | _ => 334 + l
  end.

Definition MakeDay (year month date : Z) : Z :=
  let ym := year + month / 12 in
  let mn := month mod 12 in
  DayFromYear ym + monthStart mn (InLeapYear ym) + date - 1.

Definition MakeTime (hour min sec ms : Z) : Z :=
  hour * 3600000 + min * 60000 + sec * 1000 + ms.

Definition MakeDate (day time : Z) : Z := day * msPerDay + time.

(** Years 0..99 given to the constructor denote 1900..1999. *)
Definition fullYear (y : Z) : Z :=
  if (0 <=? y) && (y <=? 99) then 1900 + y else y.

(** [new Date(year, month, date, hours, minutes, seconds, ms)]: the fields
    are local time [t], and the time value is [UTC(t) = t - LocalTZA t],
    where [LocalTZA t] is the offset of the server's zone in force at local
    time [t] (in a zone with daylight saving it differs along the year). *)
Definition newDate (LocalTZA : Z -> Z)
  (year month date hours minutes seconds ms : Z) : Date :=
  let t := MakeDate (MakeDay (fullYear year) month date)
             (MakeTime hours minutes seconds ms) in
  t - LocalTZA t.

(** TimeClip: a time value is a date only within 8.64e15 ms of the epoch. *)
Definition inTimeRange (t : Date) : Prop := Z.abs t <= 8640000000000000.

End JS.

(** ** Data model (models/Material.js) *)

Definition ObjectId := nat.

Module Usage.
Record t := mk {
  takenBy : string;
  quantity : Z;
  date : JS.Date }.
End Usage.

Module Material.
Record t := mk {
  _id : ObjectId;
  name : option string;
  matCode : string;
  quantity : Z;
  availableQuantity : Z;
  amount : option Z;
  date : JS.Date;
  document : string;
  addedBy : string;
  status : string;
  usageHistory : list Usage.t;
  projectAssigned : ObjectId }.

(** The values of the schema's [status] enum, and its default. *)
Definition statusEnum : list string :=
  ["Available"; "Out of Stock"; "On Hold"]%string.

Definition statusDefault : string := "Available"%string.

(** The validators of the schema, as [save()] runs them on a document:
    [name], [matCode] and [addedBy] are required (a required string is
    present and not empty) and [status] is one of the enum.  The other
    required paths ([quantity], [date], [projectAssigned]) are always
    present in a document of the embedding. *)
Definition validate (m : t) : bool :=
  match name m with
  | Some n => negb (String.eqb n "")
  | None => false
  end
  && negb (String.eqb (matCode m) "")
  && negb (String.eqb (addedBy m) "")
  && existsb (String.eqb (status m)) statusEnum.

Definition setAvailableQuantity (v : Z) (m : t) : t :=
  mk (_id m) (name m) (matCode m) (quantity m) v (amount m) (date m)
     (document m) (addedBy m) (status m) (usageHistory m) (projectAssigned m).

Definition setStatus (s : string) (m : t) : t :=
  mk (_id m) (name m) (matCode m) (quantity m) (availableQuantity m) (amount m)
     (date m) (document m) (addedBy m) s (usageHistory m) (projectAssigned m).

(** [m.usageHistory.push(u)] *)
Definition pushUsage (u : Usage.t) (m : t) : t :=
  mk (_id m) (name m) (matCode m) (quantity m) (availableQuantity m) (amount m)
     (date m) (document m) (addedBy m) (status m) (usageHistory m ++ [u])
     (projectAssigned m).
End Material.

(** ** The collection *)

Definition Collection := list Material.t.

Definition hasId (id : ObjectId) (d : Material.t) : bool :=
  Nat.eqb (Material._id d) id.

Definition hasCode (code : string) (d : Material.t) : bool :=
  String.eqb (Material.matCode d) code.

(** Insertion of a new document; a duplicate [_id] is refused. *)
Definition insertOne (m : Material.t) (db : Collection) : option Collection :=
  if existsb (hasId (Material._id m)) db then None else Some (db ++ [m]).

(** The write of a document read from the collection: the stored document
    with that [_id] takes the state of [m]. *)
Definition replaceOne (m : Material.t) (db : Collection) : Collection :=
  map (fun d => if hasId (Material._id m) d then m else d) db.

(** [m.save()] on a document read from the collection: the validators run
    first, and nothing is written when one of them fails ([None]: the
    ValidationError that [save()] throws). *)
Definition save (m : Material.t) (db : Collection) : option Collection :=
  if Material.validate m then Some (replaceOne m db) else None.

(** [updateMany({matCode}, {$set: ...})] *)
Definition updateMany (code : string) (upd : Material.t -> Material.t)
  (db : Collection) : Collection :=
  map (fun d => if hasCode code d then upd d else d) db.

Definition matchedCount (code : string) (db : Collection) : nat :=
  List.length (filter (hasCode code) db).

(** [sort({date: 1})]: ascending by date, documents of equal date in the
    order of the collection. *)
Fixpoint insertByDate (m : Material.t) (l : list Material.t) : list Material.t :=
  match l with
  | [] => [m]
  | x :: r =>
      if Material.date m <=? Material.date x then m :: l
      else x :: insertByDate m r
  end.

Definition sortByDate (l : list Material.t) : list Material.t :=
  fold_right insertByDate [] l.

(** ** Responses *)

Inductive Json :=
| JError (error : string)
| JMessage (message : string)
| JMaterial (material : Material.t).

Record Response := Res { code : Z; json : Json }.

(** The answer of the [catch] of a handler to the ValidationError of
    [save()]; the message of the ODM goes on to name the failing paths. *)
Definition MaterialInvalid : Response :=
  Res 500 (JError "Material validation failed").

(** ** POST /add *)

Record AddBody := mkAdd {
  add_matCode : string;
  add_quantity : Z;
  add_amount : option Z;
  add_addedBy : string;
  add_date : option JS.Date;
  add_projectAssigned : ObjectId }.

(** What a request finds around it: the clock ([clock k] is the reading
    number [k] that the request makes of it), the identifier the driver
    generates for a new document, the existing projects, and the time zone
    of the server: [LocalTZA] is the offset that moment applies to the day of
    an attendance record, [LocalTZAat t] the offset in force at local time
    [t], with which the [Date] constructor resolves its fields. *)
Record Env := mkEnv {
  clock : nat -> JS.Date;
  newId : ObjectId;
  projects : list ObjectId;
  LocalTZA : Z;
  LocalTZAat : JS.Date -> Z }.

(** [new Date()], the first time a request evaluates it. *)
Definition now (env : Env) : JS.Date := clock env 0.

Definition dateOrNow (env : Env) (date : option JS.Date) : JS.Date :=
  match date with
  | Some d => d
  | None => now env
  end.

(** [new Material({...})]: the fields the handler gives, the defaults of
    the schema for the others; the handler gives no [name]. *)
Definition newMaterial (env : Env) (body : AddBody) (file : option string)
  : Material.t :=
  Material.mk (newId env) None (add_matCode body) (add_quantity body)
    (add_quantity body) (add_amount body) (dateOrNow env (add_date body))
    (match file with Some p => p | None => ""%string end)
    (add_addedBy body) Material.statusDefault [] (add_projectAssigned body).

Definition add (env : Env) (body : AddBody) (file : option string)
  (db : Collection) : Response * Collection :=
  if negb (existsb (Nat.eqb (add_projectAssigned body)) (projects env)) then
    (Res 400 (JError "Invalid project selected"), db)
  else
    let material := newMaterial env body file in
    (* await material.save() *)
    if negb (Material.validate material) then (MaterialInvalid, db)
    else
      match insertOne material db with
      | Some db' => (Res 201 (JMaterial material), db')
      | None => (Res 500 (JError "duplicate key"), db)
      end.

(** ** POST /take *)

Record TakeBody := mkTake {
  take_matCode : string;
  take_quantity : JS.Num;   (* Number(quantity) *)
  take_takenBy : string;
  take_date : option JS.Date }.

(** [Material.find({matCode, availableQuantity: {$gt: 0}}).sort({date: 1})] *)
Definition findAvailable (code : string) (db : Collection) : list Material.t :=
  sortByDate
    (filter (fun d => hasCode code d && (0 <? Material.availableQuantity d)) db).

(** [materials.reduce((acc, m) => acc + m.availableQuantity, 0)] *)
Definition totalAvailable (materials : list Material.t) : Z :=
  fold_left (fun acc m => acc + Material.availableQuantity m) materials 0.

(** [date ? new Date(date) : new Date()] inside the loop: the date of the
    request, or else the clock as it reads when the usage event of the
    [k]-th document the loop changes is pushed. *)
Definition usageDate (env : Env) (date : option JS.Date) (k : nat) : JS.Date :=
  match date with
  | Some d => d
  | None => clock env k
  end.

(** The deduction loop.  [qtyToTake] is the loop variable; each document is
    changed in memory and saved before the next one is looked at, [k]
    documents having been saved so far.  When a [save()] throws the loop is
    left at once ([false]), with the earlier saves in place. *)
Fixpoint takeLoop (takenBy : string) (when : nat -> JS.Date) (k : nat)
  (materials : list Material.t) (qtyToTake : JS.Num) (db : Collection)
  : bool * Collection :=
  match materials with
  | [] => (true, db)
  | material :: rest =>
      if JS.leb qtyToTake (JS.Fin 0) then (true, db)
      else
        let avail := Material.availableQuantity material in
        (* the else branch: all of this document, and go on *)
        let deductAll :=
          let material' :=
            Material.setAvailableQuantity 0
              (Material.pushUsage (Usage.mk takenBy avail (when k)) material) in
          match save material' db with
          | Some db' =>
              takeLoop takenBy when (S k) rest
                (JS.sub qtyToTake (JS.Fin avail)) db'
          | None => (false, db)
          end in
        match qtyToTake with
        | JS.Fin q =>
            if avail >=? q then
              let material' :=
                Material.pushUsage (Usage.mk takenBy q (when k))
                  (Material.setAvailableQuantity (avail - q) material) in
              match save material' db with
              | Some db' => takeLoop takenBy when (S k) rest (JS.Fin 0) db'
              | None => (false, db)
              end
            else deductAll
        | JS.NaN => deductAll   (* [avail >= NaN] is false *)
        end
  end.

Definition MaterialNotFound : Response :=
  Res 404 (JError "Material not found or out of stock").

Definition InsufficientStock : Response :=
  Res 400 (JError "Not enough material available").

Definition TakenOk : Response :=
  Res 200 (JMessage "Material taken successfully").

Definition take (env : Env) (body : TakeBody) (db : Collection)
  : Response * Collection :=
  let qtyToTake := take_quantity body in
  let materials := findAvailable (take_matCode body) db in
  match materials with
  | [] => (MaterialNotFound, db)
  | _ :: _ =>
      if JS.ltb (JS.Fin (totalAvailable materials)) qtyToTake then
        (InsufficientStock, db)
      else
        let '(saved, db') :=
          takeLoop (take_takenBy body) (usageDate env (take_date body)) 0
            materials qtyToTake db in
        (if saved then TakenOk else MaterialInvalid, db')
  end.

(** ** PUT /status/:matCode *)

Definition statusWhitelist : list string :=
  ["available"; "on hold"; "out of stock"]%string.

(** [list.includes(s)] *)
Definition includes (l : list string) (s : string) : bool :=
  existsb (String.eqb s) l.

(** The [$set] document of the update. *)
Definition setStatusUpdate (status : string) (d : Material.t) : Material.t :=
  let d' := Material.setStatus status d in
  if String.eqb status "out of stock" then Material.setAvailableQuantity 0 d'
  else d'.

Definition InvalidStatus : Response :=
  Res 400 (JError "Invalid status value").

Definition NoMaterialsWithCode : Response :=
  Res 404 (JError "No materials found with this matCode").

Definition updateStatus (matCode status : string) (db : Collection)
  : Response * Collection :=
  if negb (includes statusWhitelist status) then (InvalidStatus, db)
  else
    let db' := updateMany matCode (setStatusUpdate status) db in
    if Nat.eqb (matchedCount matCode db) 0 then (NoMaterialsWithCode, db')
    else (Res 200 (JMessage ("Status updated for matCode " ++ matCode)%string), db').

(** ** DELETE /:id and DELETE /by-code/:matCode *)

Definition deleteById (id : ObjectId) (db : Collection) : Response * Collection :=
  if existsb (hasId id) db then
    (Res 200 (JMessage "Material document deleted successfully"),
     filter (fun d => negb (hasId id d)) db)
  else (Res 404 (JError "Material document not found"), db).

Definition countString (n : nat) : string :=
  NilZero.string_of_uint (Nat.to_uint n).

Definition deleteByCode (matCode : string) (db : Collection)
  : Response * Collection :=
  let deletedCount := matchedCount matCode db in
  if Nat.eqb deletedCount 0 then
    (Res 404 (JMessage ("No materials found with matCode: " ++ matCode)%string), db)
  else
    (Res 200 (JMessage ("Deleted " ++ countString deletedCount
                        ++ " material(s) with matCode: " ++ matCode)%string),
     filter (fun d => negb (hasCode matCode d)) db).

(** ** GET /material-report/:projectId (monthly report) *)

(** [start = new Date(year, month - 1, 1)] and
    [end = new Date(year, month, 0, 23, 59, 59, 999)], each resolved with
    the offset in force at its own local time. *)
Definition getMonthRange (tza : JS.Date -> Z) (year month : Z)
  : JS.Date * JS.Date :=
  let start := JS.newDate tza year (month - 1) 1 0 0 0 0 in
  let end_ := JS.newDate tza year month 0 23 59 59 999 in
  (start, end_).

(** [d >= start && d <= end] *)
Definition withinRange (start end_ d : JS.Date) : bool :=
  (d >=? start) && (d <=? end_).

Module Addition.
Record t := mk {
  date : Z;            (* the UTC day of the ISO date string *)
  quantity : Z;
  addedBy : string;
  withinMonth : bool }.
End Addition.

Module Consumption.
Record t := mk {
  date : Z;            (* the UTC day of the ISO date string *)
  quantity : Z;
  consumedBy : string;
  withinMonth : bool }.
End Consumption.

Module Line.
Record t := mk {
  matCode : string;
  matName : option string;
  remaining : Z;
  additions : list Addition.t;
  consumptions : list Consumption.t;
  monthlyAdded : Z;
  monthlyConsumed : Z }.
End Line.

(** [s || "N/A"] *)
Definition orNA (s : string) : string :=
  if String.eqb s "" then "N/A"%string else s.

Definition consumptionOf (start end_ : JS.Date) (c : Usage.t) : Consumption.t :=
  Consumption.mk (JS.Day (Usage.date c)) (Usage.quantity c)
    (orNA (Usage.takenBy c)) (withinRange start end_ (Usage.date c)).

(** The body of [materials.map((mat) => ...)]. *)
Definition reportLine (start end_ : JS.Date) (mat : Material.t) : Line.t :=
  let additions :=
    [Addition.mk (JS.Day (Material.date mat)) (Material.quantity mat)
       (Material.addedBy mat) (withinRange start end_ (Material.date mat))] in
  let consumptions := map (consumptionOf start end_) (Material.usageHistory mat) in
  let monthlyAdded :=
    if withinRange start end_ (Material.date mat) then Material.quantity mat
    else 0 in
  let monthlyConsumed :=
    fold_left (fun sum c => sum + Consumption.quantity c)
      (filter Consumption.withinMonth consumptions) 0 in
  Line.mk (Material.matCode mat) (Material.name mat)
    (Material.availableQuantity mat) additions consumptions
    monthlyAdded monthlyConsumed.

(** [Material.find({projectAssigned: projectId})] *)
Definition ofProject (projectId : ObjectId) (db : Collection) : list Material.t :=
  filter (fun d => Nat.eqb (Material.projectAssigned d) projectId) db.

Inductive ReportResponse :=
| ReportError (code : Z) (msg : string)
| ReportOk (materials : list Line.t).

(** [month] and [year] are the numbers [+month] and [+year]; [None] is a
    missing (or empty) query parameter. *)
Definition materialReport (env : Env) (projectId : ObjectId)
  (month year : option Z) (db : Collection) : ReportResponse * Collection :=
  match month, year with
  | Some month, Some year =>
      let '(start, end_) := getMonthRange (LocalTZAat env) year month in
      let materials := ofProject projectId db in
      (ReportOk (map (reportLine start end_) materials), db)
  | _, _ => (ReportError 400 "Month and year required", db)
  end.

(** ** Requests and runs *)

Inductive Request :=
| PostAdd (body : AddBody) (file : option string)
| PostTake (body : TakeBody)
| PutStatus (matCode status : string)
| DeleteId (id : ObjectId)
| DeleteByCode (matCode : string).

Definition handle (env : Env) (r : Request) (db : Collection)
  : Response * Collection :=
  match r with
  | PostAdd body file => add env body file db
  | PostTake body => take env body db
  | PutStatus matCode status => updateStatus matCode status db
  | DeleteId id => deleteById id db
  | DeleteByCode matCode => deleteByCode matCode db
  end.

(** The collection after a sequence of requests, each with what it finds
    around it, served one after the other. *)
Definition run (rs : list (Env * Request)) (db : Collection) : Collection :=
  fold_left (fun db er => snd (handle (fst er) (snd er) db)) rs db.

(** ** The ledger in the words of the specification *)

Definition sumZ (l : list Z) : Z := fold_right Z.add 0 l.

(** Aggregate remaining: the sum of the remaining quantity across all
    batches sharing a material code. *)
Definition aggregateRemaining (code : string) (db : Collection) : Z :=
  sumZ (map Material.availableQuantity (filter (hasCode code) db)).

(** A batch with remaining quantity above zero under the given code. *)
Definition inStock (code : string) (b : Material.t) : Prop :=
  Material.matCode b = code /\ 0 < Material.availableQuantity b.

(** The remaining quantity of a code over its batches in stock only. *)
Definition inStockRemaining (code : string) (db : Collection) : Z :=
  sumZ (map Material.availableQuantity
          (filter (fun d => String.eqb (Material.matCode d) code
                            && (0 <? Material.availableQuantity d)) db)).

(** [0 <= remainingQuantity <= deliveredQuantity] *)
Definition withinDelivered (b : Material.t) : Prop :=
  0 <= Material.availableQuantity b <= Material.quantity b.

Definition usedQuantity (b : Material.t) : Z :=
  sumZ (map Usage.quantity (Material.usageHistory b)).

(** [remainingQuantity = deliveredQuantity - sum(usageEvents[].quantity)] *)
Definition ledgerBalanced (b : Material.t) : Prop :=
  Material.availableQuantity b = Material.quantity b - usedQuantity b.


Definition dateAscending (a b : Material.t) : Prop :=
  Material.date a <= Material.date b.

(** Length of month [mn] (0 = January) of the Gregorian calendar. *)
Definition daysInMonth (leap : bool) (mn : Z) : Z :=
  match mn with
  | 1 => if leap then 29 else 28
  | 3 | 5 | 8 | 10 => 30
  | _ => 31
  end.

(** Requests of a run that are not the out-of-stock override. *)
Definition notOutOfStockUpdate (er : Env * Request) : Prop :=
  match snd er with
  | PutStatus _ status => status <> "out of stock"%string
  | _ => True
  end.

(** Takes of a run ask for NaN or for an integer the doubles hold exactly. *)
Definition takesSafeInteger (er : Env * Request) : Prop :=
  match snd er with
  | PostTake body =>
      match take_quantity body with
      | JS.Fin q => JS.isSafeInteger q
      | JS.NaN => True
      end
  | _ => True
  end.

Definition isAddOrTake (er : Env * Request) : Prop :=
  match snd er with
  | PostAdd _ _ | PostTake _ => True
  | _ => False
  end.

(** ** What a take writes *)

(** A batch after one deduction of [d] recorded at [when]: [d] less
    remaining, one more usage event at the end, every other field as it
    was. *)
Definition deduct (takenBy : string) (d : Z) (when : JS.Date) (b : Material.t)
  : Material.t :=
  Material.mk (Material._id b) (Material.name b) (Material.matCode b)
    (Material.quantity b) (Material.availableQuantity b - d)
    (Material.amount b) (Material.date b) (Material.document b)
    (Material.addedBy b) (Material.status b)
    (Material.usageHistory b ++ [Usage.mk takenBy d when])
    (Material.projectAssigned b).

(** A touched batch with what is deducted from it and when. *)
Definition Touch : Type := Material.t * (Z * JS.Date).

(** What a plan (the touched batches) holds for a batch. *)
Definition touchFor (plan : list Touch) (b : Material.t) : option (Z * JS.Date) :=
  option_map snd (find (fun p => hasId (Material._id b) (fst p)) plan).

(** The store after a plan: each touched batch deducted once, the others
    as they were. *)
Definition consumed (takenBy : string) (plan : list Touch) (db : Collection)
  : Collection :=
  map (fun b =>
         match touchFor plan b with
         | Some (d, when) => deduct takenBy d when b
         | None => b
         end) db.

(** The documents the loop changes, in the order it visits them, each with
    what it takes from it and the date of its usage event, for any
    requested number; the loop saves them one after the other. *)
Fixpoint loopPlan (when : nat -> JS.Date) (k : nat) (ms : list Material.t)
  (q : JS.Num) : list Touch :=
  match ms with
  | [] => []
  | m :: rest =>
      if JS.leb q (JS.Fin 0) then []
      else
        let avail := Material.availableQuantity m in
        match q with
        | JS.Fin z =>
            if avail >=? z then [(m, (z, when k))]
            else (m, (avail, when k))
                   :: loopPlan when (S k) rest (JS.sub q (JS.Fin avail))
        | JS.NaN => (m, (avail, when k)) :: loopPlan when (S k) rest JS.NaN
        end
  end.

(** The part of a plan that gets saved: the loop stops at the first
    document that fails validation. *)
Fixpoint savedPart (plan : list Touch) : list Touch :=
  match plan with
  | [] => []
  | p :: rest =>
      if Material.validate (fst p) then p :: savedPart rest else []
  end.

(** The writes of a plan, one after the other, each of the document as it
    was read. *)
Definition writePlan (takenBy : string) (plan : list Touch) (db : Collection)
  : Collection :=
  fold_left
    (fun s p => replaceOne (deduct takenBy (fst (snd p)) (snd (snd p)) (fst p)) s)
    plan db.

(** ** Scenarios *)

Definition dayMs (n : Z) : JS.Date := n * JS.msPerDay.

Definition site : ObjectId := 7%nat.

(** A request at time [t] whose clock advances by a millisecond from one
    reading to the next, in a zone without offset. *)
Definition envAt (t : JS.Date) (id : ObjectId) : Env :=
  mkEnv (fun k => t + Z.of_nat k) id [site] 0 (fun _ => 0).

(** A stored batch of cement that passes the validators of the schema. *)
Definition cement (id : ObjectId) (quantity day : Z) : Material.t :=
  Material.mk id (Some "Cement"%string) "CEM1" quantity quantity None
    (dayMs day) "" "store" "Available" [] site.

(** Batch A: code CEM1, 100 delivered on day 1; batch B: 50 on day 5. *)
Definition batchA : Material.t := cement 1%nat 100 1.

Definition batchB : Material.t := cement 2%nat 50 5.

Definition twoBatches : Collection := [batchA; batchB].

Definition takeCEM1 (q : Z) : TakeBody :=
  mkTake "CEM1" (JS.Fin q) "mason" None.

(** The addition of batch A as POST /add receives it. *)
Definition addA : Request :=
  PostAdd (mkAdd "CEM1" 100 None "store" (Some (dayMs 1)) site) None.

(** A stored batch without a name: it fails the validators of the schema. *)
Definition unnamedBatch : Material.t :=
  Material.mk 2%nat None "CEM1" 50 50 None (dayMs 5) "" "store" "Available"
    [] site.


(** A batch delivered on day 3 of January 1970, used on day 20 of that
    month and on day 2 of the next one. *)
Definition january1970 : Material.t :=
  Material.mk 1%nat (Some "Cement"%string) "CEM1" 100 60 None (dayMs 2) ""
    "store" "Available"
    [Usage.mk "mason" 30 (dayMs 19); Usage.mk "mason" 10 (dayMs 32)] site.

(** ** More of the ledger, for the properties of the routes *)

(** The sum of a measure over the batches of a material code. *)
Definition codeSum (f : Material.t -> Z) (code : string) (db : Collection) : Z :=
  sumZ (map f (filter (hasCode code) db)).

(** Remaining plus used: what a batch accounts for. *)
Definition accounted (b : Material.t) : Z :=
  Material.availableQuantity b + usedQuantity b.

(** The stored document with a given identifier. *)
Definition stored (id : ObjectId) (db : Collection) : option Material.t :=
  find (hasId id) db.

(** ** GET /total-availability and GET /total-consumed *)

(** One step of a [$group] stage with a [$sum]: the value joins the group of
    its key, or opens a new group. *)
Fixpoint addToGroup (k : string) (v : Z) (groups : list (string * Z))
  : list (string * Z) :=
  match groups with
  | [] => [(k, v)]
  | (k', s) :: rest =>
      if String.eqb k' k then (k', s + v) :: rest
      else (k', s) :: addToGroup k v rest
  end.

(** [{$group: {_id: key, total: {$sum: val}}}]; the groups are listed in
    the order in which their keys are first met. *)
Definition groupSum {A : Type} (key : A -> string) (val : A -> Z) (l : list A)
  : list (string * Z) :=
  fold_left (fun groups x => addToGroup (key x) (val x) groups) l [].

Definition totalAvailability (db : Collection) : list (string * Z) :=
  groupSum Material.matCode Material.availableQuantity db.

(** [{$unwind: "$usageHistory"}]: one document per usage event; a batch
    without usage events gives none. *)
Definition unwindUsageHistory (db : Collection) : list (Material.t * Usage.t) :=
  flat_map (fun d => map (pair d) (Material.usageHistory d)) db.

Definition totalConsumed (db : Collection) : list (string * Z) :=
  groupSum (fun p => Material.matCode (fst p)) (fun p => Usage.quantity (snd p))
    (unwindUsageHistory db).

(** The total of a group, if the group is listed. *)
Definition groupTotal (k : string) (groups : list (string * Z)) : option Z :=
  option_map snd (find (fun g => String.eqb (fst g) k) groups).

(** ** Users and the one-time password (models/User.js, routes/auth.js)

    The password hash and its comparison, the signing of the token and the
    validators of the request are outside the embedded code: a request
    carries whether validation passed and whether the password matched. *)

Module Otp.
Record t := mk {
  code : option string;
  expiresAt : option JS.Date;
  verified : bool }.

(** The nested path when nothing is stored under it. *)
Definition unset : t := mk None None false.
End Otp.

Module DeviceInfo.
Record t := mk {
  deviceId : option string;
  lastLoginDevice : option string;
  loginImage : option (string * string) }.   (* filename, path *)
End DeviceInfo.

Module User.
Record t := mk {
  _id : ObjectId;
  username : string;
  phone : string;
  role : string;
  isActive : bool;
  otp : Otp.t;
  lastLogin : option JS.Date;
  deviceInfo : DeviceInfo.t;
  projectAssigned : option ObjectId;
  createdAt : JS.Date }.

Definition setOtp (o : Otp.t) (u : t) : t :=
  mk (_id u) (username u) (phone u) (role u) (isActive u) o (lastLogin u)
     (deviceInfo u) (projectAssigned u) (createdAt u).

Definition setLastLogin (d : option JS.Date) (u : t) : t :=
  mk (_id u) (username u) (phone u) (role u) (isActive u) (otp u) d
     (deviceInfo u) (projectAssigned u) (createdAt u).

Definition setDeviceInfo (d : DeviceInfo.t) (u : t) : t :=
  mk (_id u) (username u) (phone u) (role u) (isActive u) (otp u)
     (lastLogin u) d (projectAssigned u) (createdAt u).

Definition setIsActive (a : bool) (u : t) : t :=
  mk (_id u) (username u) (phone u) (role u) a (otp u) (lastLogin u)
     (deviceInfo u) (projectAssigned u) (createdAt u).

(** [/^[0-9]{10}$/] *)
Definition tenDigits (s : string) : bool :=
  Nat.eqb (String.length s) 10
  && forallb (fun c => (48 <=? Ascii.nat_of_ascii c)%nat
                       && (Ascii.nat_of_ascii c <=? 57)%nat)
       (list_ascii_of_string s).

(** The validators of the schema on the paths of the embedding, as
    [save()] runs them: the length of [username], the pattern of [phone],
    the enum of [role]. *)
Definition validate (u : t) : bool :=
  (3 <=? String.length (username u))%nat
  && (String.length (username u) <=? 30)%nat
  && tenDigits (phone u)
  && existsb (String.eqb (role u)) ["admin"; "user"]%string.

(** [generateOTP]: the code is fixed, it lasts ten minutes. *)
Definition generateOTP (now : JS.Date) (u : t) : string * t :=
  let otp := "1234"%string in
  (otp, setOtp (Otp.mk (Some otp) (Some (now + 10 * 60 * 1000)) false) u).

(** [this.otp.expiresAt < new Date()]; a missing date compares false. *)
Definition expired (now : JS.Date) (o : Otp.t) : bool :=
  match Otp.expiresAt o with
  | Some e => e <? now
  | None => false
  end.

(** [this.otp.code === inputOtp] *)
Definition codeIs (inputOtp : string) (o : Otp.t) : bool :=
  match Otp.code o with
  | Some c => String.eqb c inputOtp
  | None => false
  end.

Definition verifyOTP (inputOtp : string) (now : JS.Date) (u : t) : bool * t :=
  if Otp.verified (otp u) then (false, u)
  else if expired now (otp u) then (false, u)
  else if codeIs inputOtp (otp u) then
    (true,
     setOtp (Otp.mk (Otp.code (otp u)) (Otp.expiresAt (otp u)) true) u)
  else (false, u).
End User.

Definition Users := list User.t.

Definition findUserById (id : ObjectId) (users : Users) : option User.t :=
  find (fun u => Nat.eqb (User._id u) id) users.

(** [User.findOne({username, isActive: true})] *)
Definition findActiveByName (username : string) (users : Users) : option User.t :=
  find (fun u => String.eqb (User.username u) username && User.isActive u) users.

Definition saveUser (u : User.t) (users : Users) : Users :=
  map (fun x => if Nat.eqb (User._id x) (User._id u) then u else x) users.

Inductive AuthData :=
| NoData
| OtpIssued (userId : ObjectId) (otp : string) (expiresAt : option JS.Date)
| LoggedIn (id : ObjectId) (username phone role : string)
    (image : option string) (lastLogin : option JS.Date).

Record AuthResponse := AuthRes {
  auth_status : Z;
  auth_success : bool;
  auth_message : string;
  auth_data : AuthData }.

Definition ValidationFailed : AuthResponse :=
  AuthRes 400 false "Validation failed" NoData.

Record LoginRequest := mkLogin {
  login_valid : bool;              (* errors.isEmpty() *)
  login_username : string;
  login_passwordValid : bool;      (* await user.comparePassword(password) *)
  login_deviceId : option string;
  login_userAgent : option string;
  login_file : option (string * string) }.

(** POST /login *)
Definition login (now : JS.Date) (req : LoginRequest) (users : Users)
  : AuthResponse * Users :=
  if negb (login_valid req) then (ValidationFailed, users)
  else
    match findActiveByName (login_username req) users with
    | None => (AuthRes 401 false "Invalid credentials" NoData, users)
    | Some user =>
        if negb (login_passwordValid req) then
          (AuthRes 401 false "Invalid credentials" NoData, users)
        else
          let '(otp, user1) := User.generateOTP now user in
          let info1 :=
            match login_deviceId req with
            | Some deviceId =>
                DeviceInfo.mk (Some deviceId)
                  (Some (match login_userAgent req with
                         | Some a => a
                         | None => "Unknown"%string
                         end))
                  (DeviceInfo.loginImage (User.deviceInfo user1))
            | None => User.deviceInfo user1
            end in
          let info2 :=
            match login_file req with
            | Some f =>
                DeviceInfo.mk (DeviceInfo.deviceId info1)
                  (DeviceInfo.lastLoginDevice info1) (Some f)
            | None => info1
            end in
          let user2 := User.setDeviceInfo info2 user1 in
          (AuthRes 200 true "OTP sent for verification"
             (OtpIssued (User._id user2) otp (Otp.expiresAt (User.otp user2))),
           saveUser user2 users)
    end.

(** [user.deviceInfo?.loginImage?.path || null] *)
Definition loginImagePath (d : DeviceInfo.t) : option string :=
  match DeviceInfo.loginImage d with
  | Some (_, path) => if String.eqb path "" then None else Some path
  | None => None
  end.

Definition UserNotFound : AuthResponse :=
  AuthRes 404 false "User not found or inactive" NoData.

Definition InvalidOtp : AuthResponse :=
  AuthRes 401 false "Invalid or expired OTP" NoData.

(** POST /verify-otp *)
Definition verifyOtp (now : JS.Date) (valid : bool) (userId : ObjectId)
  (otp : string) (users : Users) : AuthResponse * Users :=
  if negb valid then (ValidationFailed, users)
  else
    match findUserById userId users with
    | None => (UserNotFound, users)
    | Some user =>
        if negb (User.isActive user) then (UserNotFound, users)
        else
          let '(isOtpValid, user1) := User.verifyOTP otp now user in
          if negb isOtpValid then (InvalidOtp, users)
          else
            let user2 := User.setLastLogin (Some now) user1 in
            (AuthRes 200 true "Login successful"
               (LoggedIn (User._id user2) (User.username user2)
                  (User.phone user2) (User.role user2)
                  (loginImagePath (User.deviceInfo user2))
                  (User.lastLogin user2)),
             saveUser user2 users)
    end.

(** POST /resend-otp *)
Definition resendOtp (now : JS.Date) (valid : bool) (userId : ObjectId)
  (users : Users) : AuthResponse * Users :=
  if negb valid then (ValidationFailed, users)
  else
    match findUserById userId users with
    | None => (UserNotFound, users)
    | Some user =>
        if negb (User.isActive user) then (UserNotFound, users)
        else
          let '(newOtp, user1) :=
            User.generateOTP now (User.setOtp Otp.unset user) in
          (AuthRes 200 true "OTP resent successfully"
             (OtpIssued (User._id user1) newOtp (Otp.expiresAt (User.otp user1))),
           saveUser user1 users)
    end.

(** POST /logout, for the user the session belongs to:
    [findByIdAndUpdate(id, {$unset: {otp: 1}})]. *)
Definition logout (userId : ObjectId) (users : Users) : AuthResponse * Users :=
  (AuthRes 200 true "Logged out successfully" NoData,
   map (fun x => if Nat.eqb (User._id x) userId
                 then User.setOtp Otp.unset x else x) users).

(** A user for the examples: without a code, holding a fresh code, and
    after the code was used. *)
Definition ashaWith (o : Otp.t) : User.t :=
  User.mk 5%nat "asha" "9999999999" "user" true o None
    (DeviceInfo.mk None None None) (Some site) 0.

Definition ashaFresh : User.t :=
  ashaWith (Otp.mk (Some "1234"%string) (Some 601000) false).

Definition ashaUsed : User.t :=
  ashaWith (Otp.mk (Some "1234"%string) (Some 601000) true).

(** ** Employees, attendance and the attendance report
    (models/Employee.js, models/Attendance.js,
    GET /attendance-report/:projectId) *)

Module Employee.
Record t := mk {
  _id : ObjectId;
  name : string;
  phone : string;
  address : string;
  salaryPerDay : Z;
  joiningDate : JS.Date;
  assignedProjects : list ObjectId }.
End Employee.

Module Attendance.
Record t := mk {
  _id : ObjectId;
  employeeId : ObjectId;
  status : string;
  inTime : string;
  outTime : string;
  work : string;
  date : JS.Date }.

(** The values of the schema's [status] enum. *)
Definition statusEnum : list string := ["Present"; "Absent"]%string.

(** The validators of the schema, as [save()] runs them: [status] is one
    of the enum, [inTime] and [outTime] are required (present and not
    empty). *)
Definition validate (a : t) : bool :=
  existsb (String.eqb (status a)) statusEnum
  && negb (String.eqb (inTime a) "")
  && negb (String.eqb (outTime a) "").
End Attendance.

Module Day.
Record t := mk {
  date : Z;            (* the UTC day of the ISO date string *)
  status : string;
  inTime : string;
  outTime : string;
  dailyWork : string }.
End Day.

Module Sheet.
Record t := mk {
  employee : Employee.t;
  attendance : list Day.t;
  present : Z;
  half : Z;
  absent : Z;
  totalSalary : Q }.
End Sheet.






















(** ** POST /api/attendance (routes/attendance.js) *)








(** ** The user routes (routes/users.js)

    [adminAuth] is outside the embedded code: a request carries whether it
    lets the request through. *)

Record CreateUserRequest := mkCreateUser {
  cu_admin : bool;                 (* adminAuth lets the request through *)
  cu_valid : bool;                 (* errors.isEmpty() *)
  cu_username : string;            (* after the [trim] of its validator *)
  cu_phone : string;
  cu_role : string;
  cu_projectAssigned : ObjectId }.

Inductive Gated (A : Type) :=
| Refused                          (* answered by adminAuth *)
| Handled (a : A).

Arguments Refused {A}.
Arguments Handled {A} a.

(** [User.findOne({$or: [{username}, {phone}]})] *)
Definition findByNameOrPhone (username phone : string) (users : Users)
  : option User.t :=
  find (fun u => String.eqb (User.username u) username
                 || String.eqb (User.phone u) phone) users.

Definition newUser (env : Env) (req : CreateUserRequest) : User.t :=
  User.mk (newId env) (cu_username req) (cu_phone req) (cu_role req) true
    Otp.unset None (DeviceInfo.mk None None None)
    (Some (cu_projectAssigned req)) (now env).

(** POST /api/users: open to anyone while there is no user, to admins
    afterwards. *)
Definition createUser (env : Env) (req : CreateUserRequest) (users : Users)
  : Gated (AuthResponse * Users) :=
  if negb (Nat.eqb (List.length users) 0) && negb (cu_admin req) then Refused
  else if negb (cu_valid req) then Handled (ValidationFailed, users)
  else
    match findByNameOrPhone (cu_username req) (cu_phone req) users with
    | Some _ =>
        Handled (AuthRes 409 false
                   "User with this username or phone already exists" NoData,
                 users)
    | None =>
        if negb (existsb (Nat.eqb (cu_projectAssigned req)) (projects env)) then
          Handled (AuthRes 400 false "Invalid project selected" NoData, users)
        (* await user.save() *)
        else if negb (User.validate (newUser env req))
                || existsb (fun u => Nat.eqb (User._id u) (newId env)) users then
          Handled (AuthRes 500 false "Server error during user creation" NoData,
                   users)
        else
          Handled (AuthRes 201 true "User created successfully" NoData,
                   users ++ [newUser env req])
    end.

Definition usersAfter (g : Gated (AuthResponse * Users)) (users : Users)
  : Users :=
  match g with
  | Refused => users
  | Handled r => snd r
  end.

(** The users after a sequence of such requests. *)
Definition createAll (rs : list (Env * CreateUserRequest)) (users : Users)
  : Users :=
  fold_left (fun us er => usersAfter (createUser (fst er) (snd er) us) us)
    rs users.

(** PUT /api/users/refresh-all:
    [updateMany({}, {$unset: {otp: 1}, $set: {lastLogin: null}})] *)
Definition refreshAll (users : Users) : AuthResponse * Users :=
  (AuthRes 200 true "All users refreshed successfully" NoData,
   map (fun u => User.setLastLogin None (User.setOtp Otp.unset u)) users).

(** PUT /api/users/:id/status: [findByIdAndUpdate(id, {isActive})] *)
Definition setUserStatus (id : ObjectId) (isActive : bool) (users : Users)
  : AuthResponse * Users :=
  match findUserById id users with
  | None => (AuthRes 404 false "User not found" NoData, users)
  | Some _ =>
      (AuthRes 200 true
         (if isActive then "User activated successfully"
          else "User deactivated successfully") NoData,
       map (fun u => if Nat.eqb (User._id u) id
                     then User.setIsActive isActive u else u) users)
  end.

(** *** GET /api/users: filter, newest first, one page *)











(** * Properties *)

(** ** Sums and the FIFO order *)

Lemma fold_left_add_sumZ (A : Type) (f : A -> Z) (l : list A) (acc : Z) :
  fold_left (fun a x => a + f x) l acc = acc + sumZ (map f l).
Proof.
  revert acc; induction l as [|x l IH]; intros acc; simpl.
  - lia.
  - rewrite IH. lia.
Qed.

Lemma totalAvailable_sumZ (ms : list Material.t) :
  totalAvailable ms = sumZ (map Material.availableQuantity ms).
Proof. unfold totalAvailable. now rewrite fold_left_add_sumZ. Qed.

Lemma sumZ_cons (a : Z) (l : list Z) : sumZ (a :: l) = a + sumZ l.
Proof. reflexivity. Qed.

Lemma sumZ_app (l1 l2 : list Z) : sumZ (l1 ++ l2) = sumZ l1 + sumZ l2.
Proof. induction l1; simpl; rewrite ?sumZ_cons; lia. Qed.

Lemma sumZ_perm (l1 l2 : list Z) : Permutation l1 l2 -> sumZ l1 = sumZ l2.
Proof. induction 1; rewrite ?sumZ_cons; lia. Qed.

Lemma insertByDate_perm (m : Material.t) (l : list Material.t) :
  Permutation (m :: l) (insertByDate m l).
Proof.
  induction l as [|x r IH]; simpl.
  - apply Permutation_refl.
  - destruct (Material.date m <=? Material.date x).
    + apply Permutation_refl.
    + eapply perm_trans; [apply perm_swap|]. now apply perm_skip.
Qed.

Lemma sortByDate_perm (l : list Material.t) : Permutation (sortByDate l) l.
Proof.
  induction l as [|x r IH]; simpl.
  - constructor.
  - apply Permutation_sym. eapply perm_trans; [|apply insertByDate_perm].
    apply perm_skip. now apply Permutation_sym.
Qed.

Lemma insertByDate_sorted (m : Material.t) (l : list Material.t) :
  Sorted dateAscending l -> Sorted dateAscending (insertByDate m l).
Proof.
  induction 1 as [|x r Hs IH Hhd]; simpl.
  - repeat constructor.
  - destruct (Material.date m <=? Material.date x) eqn:E.
    + constructor; [now constructor|]. constructor. unfold dateAscending. lia.
    + constructor; [exact IH|].
      destruct Hhd as [|y r' Hxy]; simpl.
      * constructor. unfold dateAscending. lia.
      * destruct (Material.date m <=? Material.date y);
          constructor; unfold dateAscending in *; lia.
Qed.

Lemma sortByDate_sorted (l : list Material.t) :
  Sorted dateAscending (sortByDate l).
Proof.
  induction l; simpl; [constructor | now apply insertByDate_sorted].
Qed.

Lemma findAvailable_perm (code : string) (db : Collection) :
  Permutation (findAvailable code db)
    (filter (fun d => hasCode code d && (0 <? Material.availableQuantity d)) db).
Proof. apply sortByDate_perm. Qed.

Lemma findAvailable_In (code : string) (db : Collection) (b : Material.t) :
  In b (findAvailable code db) <-> In b db /\ inStock code b.
Proof.
  unfold inStock, hasCode. split.
  - intros H. apply (Permutation_in _ (findAvailable_perm code db)) in H.
    apply filter_In in H. destruct H as [H1 H2].
    apply andb_true_iff in H2. destruct H2 as [H2 H3].
    apply String.eqb_eq in H2. apply Z.ltb_lt in H3. auto.
  - intros [H1 [H2 H3]].
    apply (Permutation_in _ (Permutation_sym (findAvailable_perm code db))).
    apply filter_In. split; [exact H1|].
    apply andb_true_iff. split; [now apply String.eqb_eq | now apply Z.ltb_lt].
Qed.

Lemma findAvailable_nil (code : string) (db : Collection) :
  findAvailable code db = [] <-> (forall b, In b db -> ~ inStock code b).
Proof.
  split.
  - intros E b Hb Hs.
    assert (H : In b (findAvailable code db)) by (apply findAvailable_In; auto).
    rewrite E in H. contradiction.
  - intros H. destruct (findAvailable code db) as [|b l] eqn:E; [reflexivity|].
    assert (Hb : In b (findAvailable code db)) by (rewrite E; now left).
    apply findAvailable_In in Hb. destruct Hb as [Hb Hs].
    exfalso. exact (H b Hb Hs).
Qed.

Lemma findAvailable_nonempty (code : string) (db : Collection) :
  (exists b, In b db /\ inStock code b) -> findAvailable code db <> [].
Proof.
  intros [b [Hb Hs]] E. apply (proj1 (findAvailable_nil code db) E b Hb Hs).
Qed.

Lemma findAvailable_positive (code : string) (db : Collection) :
  Forall (fun m => 0 < Material.availableQuantity m) (findAvailable code db).
Proof.
  apply Forall_forall. intros b Hb. apply findAvailable_In in Hb.
  now destruct Hb as [_ [_ H]].
Qed.

(** The sum the handler checks is the remaining quantity over the batches
    in stock; it is never below the aggregate over all batches of the
    code. *)
Lemma totalAvailable_inStock (code : string) (db : Collection) :
  totalAvailable (findAvailable code db) = inStockRemaining code db.
Proof.
  rewrite totalAvailable_sumZ. apply sumZ_perm, Permutation_map, findAvailable_perm.
Qed.


Lemma sumZ_available_nonneg (ms : list Material.t) :
  Forall (fun m => 0 < Material.availableQuantity m) ms ->
  0 <= sumZ (map Material.availableQuantity ms).
Proof.
  induction 1 as [|m ms Hm HF IH]; cbn [map]; rewrite ?sumZ_cons.
  - unfold sumZ; simpl; lia.
  - lia.
Qed.

(** ** The plan of the specification *)





(** ** The deduction loop and its plan *)

Lemma loopPlan_done (when : nat -> JS.Date) (k : nat) (ms : list Material.t)
  (q : Z) :
  q <= 0 -> loopPlan when k ms (JS.Fin q) = [].
Proof.
  intros Hq. destruct ms as [|m ms]; [reflexivity|]. cbn [loopPlan JS.leb].
  apply Z.leb_le in Hq. now rewrite Hq.
Qed.

Lemma takeLoop_done (tb : string) (when : nat -> JS.Date) (k : nat)
  (ms : list Material.t) (q : Z) (db : Collection) :
  q <= 0 -> takeLoop tb when k ms (JS.Fin q) db = (true, db).
Proof.
  intros Hq. destruct ms as [|m ms]; [reflexivity|]. cbn [takeLoop JS.leb].
  apply Z.leb_le in Hq. now rewrite Hq.
Qed.

(** The loop saves the documents of its plan one after the other and stops
    at the first one that fails validation. *)
Lemma takeLoop_writes (tb : string) (when : nat -> JS.Date)
  (ms : list Material.t) :
  forall (q : JS.Num) (k : nat) (db : Collection),
    takeLoop tb when k ms q db
    = (forallb (fun p => Material.validate (fst p)) (loopPlan when k ms q),
       writePlan tb (savedPart (loopPlan when k ms q)) db).
Proof.
  induction ms as [|m ms IH]; intros q k db; [reflexivity|].
  cbn [takeLoop loopPlan].
  destruct (JS.leb q (JS.Fin 0)); [reflexivity|].
  assert (Hall : match
                   save (Material.setAvailableQuantity 0
                           (Material.pushUsage
                              (Usage.mk tb (Material.availableQuantity m) (when k))
                              m)) db
                 with
                 | Some db' =>
                     takeLoop tb when (S k) ms
                       (JS.sub q (JS.Fin (Material.availableQuantity m))) db'
                 | None => (false, db)
                 end
                 = (forallb (fun p => Material.validate (fst p))
                      ((m, (Material.availableQuantity m, when k))
                         :: loopPlan when (S k) ms
                              (JS.sub q (JS.Fin (Material.availableQuantity m)))),
                    writePlan tb
                      (savedPart
                         ((m, (Material.availableQuantity m, when k))
                            :: loopPlan when (S k) ms
                                 (JS.sub q (JS.Fin (Material.availableQuantity m)))))
                      db)).
  { unfold save.
    change (Material.validate
              (Material.setAvailableQuantity 0
                 (Material.pushUsage
                    (Usage.mk tb (Material.availableQuantity m) (when k)) m)))
      with (Material.validate m).
    cbn [forallb savedPart fst].
    destruct (Material.validate m); [|reflexivity].
    rewrite IH. cbn [andb]. f_equal. unfold writePlan. cbn [fold_left fst snd].
    unfold deduct. cbn. now rewrite Z.sub_diag. }
  destruct q as [z|]; [|exact Hall].
  destruct (Material.availableQuantity m >=? z); [|exact Hall].
  unfold save.
  change (Material.validate
            (Material.pushUsage (Usage.mk tb z (when k))
               (Material.setAvailableQuantity
                  (Material.availableQuantity m - z) m)))
    with (Material.validate m).
  cbn [forallb savedPart fst].
  destruct (Material.validate m); [|reflexivity].
  rewrite takeLoop_done by lia. reflexivity.
Qed.

(** What the loop takes from a document in stock is above zero and at most
    what the document has. *)
Lemma loopPlan_bounds (when : nat -> JS.Date) (ms : list Material.t) :
  forall (q : JS.Num) (k : nat) (p : Touch),
    Forall (fun m => 0 < Material.availableQuantity m) ms ->
    In p (loopPlan when k ms q) ->
    In (fst p) ms
    /\ 0 < fst (snd p) <= Material.availableQuantity (fst p).
Proof.
  induction ms as [|m ms IH]; intros q k p HF Hp; [contradiction|].
  inversion HF as [|? ? Hm HF']; subst. cbn [loopPlan] in Hp.
  assert (Hall : In p ((m, (Material.availableQuantity m, when k))
                         :: loopPlan when (S k) ms
                              (JS.sub q (JS.Fin (Material.availableQuantity m)))) ->
                 In (fst p) (m :: ms)
                 /\ 0 < fst (snd p) <= Material.availableQuantity (fst p)).
  { intros [<-|H]; [cbn; split; [now left | lia]|].
    destruct (IH _ _ _ HF' H) as [H1 H2]. split; [now right | exact H2]. }
  destruct q as [z|]; cbn [JS.leb] in Hp.
  - destruct (z <=? 0) eqn:L; [contradiction|]. apply Z.leb_gt in L.
    destruct (Material.availableQuantity m >=? z) eqn:G; [|now apply Hall].
    apply Z.geb_le in G. destruct Hp as [<-|[]]. cbn. split; [now left | lia].
  - now apply Hall.
Qed.

Lemma loopPlan_ids (when : nat -> JS.Date) (ms : list Material.t) :
  forall (q : JS.Num) (k : nat),
    NoDup (map Material._id ms) ->
    NoDup (map (fun p : Touch => Material._id (fst p)) (loopPlan when k ms q)).
Proof.
  induction ms as [|m ms IH]; intros q k Hnd; [constructor|].
  inversion Hnd as [|? ? Hfresh Hrest]; subst. cbn [loopPlan].
  assert (Hin : forall q' k' x,
            In x (map (fun p : Touch => Material._id (fst p))
                    (loopPlan when k' ms q')) ->
            In x (map Material._id ms)).
  { clear. intros q' k'. revert q' k'.
    induction ms as [|m ms IH]; intros q' k' x Hx; [contradiction|].
    cbn [loopPlan] in Hx. destruct (JS.leb q' (JS.Fin 0)); [contradiction|].
    destruct q' as [z|].
    - destruct (Material.availableQuantity m >=? z).
      + destruct Hx as [<-|[]]. now left.
      + destruct Hx as [<-|Hx]; [now left | right; eapply IH; eauto].
    - destruct Hx as [<-|Hx]; [now left | right; eapply IH; eauto]. }
  destruct (JS.leb q (JS.Fin 0)); [constructor|].
  destruct q as [z|].
  - destruct (Material.availableQuantity m >=? z); cbn [map fst].
    + constructor; [intros []|constructor].
    + constructor; [|now apply IH]. intros H. apply Hfresh. eapply Hin; eauto.
  - cbn [map fst]. constructor; [|now apply IH].
    intros H. apply Hfresh. eapply Hin; eauto.
Qed.

Lemma savedPart_In (plan : list Touch) (p : Touch) :
  In p (savedPart plan) -> In p plan.
Proof.
  induction plan as [|x plan IH]; [contradiction|]. cbn [savedPart].
  destruct (Material.validate (fst x)); [|contradiction].
  intros [<-|H]; [now left | right; auto].
Qed.

Lemma savedPart_ids (plan : list Touch) :
  NoDup (map (fun p : Touch => Material._id (fst p)) plan) ->
  NoDup (map (fun p : Touch => Material._id (fst p)) (savedPart plan)).
Proof.
  induction plan as [|x plan IH]; intros Hnd; [constructor|].
  inversion Hnd as [|? ? Hfresh Hrest]; subst. cbn [savedPart].
  destruct (Material.validate (fst x)); [|constructor].
  cbn [map]. constructor; [|now apply IH].
  intros H. apply Hfresh. apply in_map_iff in H. destruct H as [p [Hp H]].
  apply in_map_iff. exists p. split; [exact Hp | now apply savedPart_In].
Qed.



(** ** Writing documents in a collection with unique identifiers *)

Lemma replaceOne_ids (m : Material.t) (db : Collection) :
  map Material._id (replaceOne m db) = map Material._id db.
Proof.
  unfold replaceOne. rewrite map_map. apply map_ext. intros d. unfold hasId.
  destruct (Nat.eqb (Material._id d) (Material._id m)) eqn:E; [|reflexivity].
  apply Nat.eqb_eq in E. now symmetry.
Qed.



Lemma unique_id (db : Collection) (a b : Material.t) :
  NoDup (map Material._id db) -> In a db -> In b db ->
  Material._id a = Material._id b -> a = b.
Proof.
  induction db as [|d db IH]; simpl; intros Hnd Ha Hb E; [contradiction|].
  inversion Hnd as [|? ? Hnin Hnd']; subst.
  destruct Ha as [->|Ha], Hb as [->|Hb]; auto.
  - exfalso. apply Hnin. rewrite E. now apply in_map.
  - exfalso. apply Hnin. rewrite <- E. now apply in_map.
Qed.

Lemma filter_ids (keep : Material.t -> bool) (db : Collection) :
  NoDup (map Material._id db) ->
  NoDup (map Material._id (filter keep db)).
Proof.
  intros Hdb. induction db as [|d db IH]; cbn [filter map] in *; [constructor|].
  inversion Hdb as [|? ? Hfresh Hrest]; subst.
  destruct (keep d); cbn [map]; [|now apply IH].
  constructor; [|now apply IH].
  intros Hin. apply Hfresh. apply in_map_iff in Hin.
  destruct Hin as [x [Hx Hin]]. apply filter_In in Hin.
  apply in_map_iff. exists x. tauto.
Qed.

Lemma findAvailable_ids (code : string) (db : Collection) :
  NoDup (map Material._id db) ->
  NoDup (map Material._id (findAvailable code db)).
Proof.
  intros H. eapply Permutation_NoDup.
  - apply Permutation_map, Permutation_sym, findAvailable_perm.
  - now apply filter_ids.
Qed.

Lemma find_absent (plan : list Touch) (id : ObjectId) :
  ~ In id (map (fun p : Touch => Material._id (fst p)) plan) ->
  find (fun p : Touch => hasId id (fst p)) plan = None.
Proof.
  induction plan as [|p plan IH]; simpl; intros H; [reflexivity|].
  unfold hasId at 1. destruct (Nat.eqb (Material._id (fst p)) id) eqn:E.
  - apply Nat.eqb_eq in E. exfalso. apply H. now left.
  - apply IH. intros H'. apply H. now right.
Qed.

(** Writing the documents of a plan with distinct identifiers touches each
    stored document at most once. *)
Lemma writePlan_map (tb : string) (plan : list Touch) :
  forall db : Collection,
    NoDup (map (fun p : Touch => Material._id (fst p)) plan) ->
    writePlan tb plan db
    = map (fun b =>
             match find (fun p : Touch => hasId (Material._id b) (fst p)) plan with
             | Some p => deduct tb (fst (snd p)) (snd (snd p)) (fst p)
             | None => b
             end) db.
Proof.
  induction plan as [|[m [d w]] plan IH]; intros db Hnd.
  - simpl. now rewrite map_id.
  - inversion Hnd as [|? ? Hnin Hnd']; subst.
    unfold writePlan in *. cbn [fold_left fst snd]. rewrite IH by exact Hnd'.
    unfold replaceOne. rewrite map_map. apply map_ext. intros b.
    cbn [find fst snd].
    assert (Hsym : hasId (Material._id b) m = hasId (Material._id m) b)
      by (unfold hasId; apply Nat.eqb_sym).
    rewrite Hsym. change (Material._id (deduct tb d w m)) with (Material._id m).
    destruct (hasId (Material._id m) b) eqn:E; [|reflexivity].
    change (Material._id (deduct tb d w m)) with (Material._id m).
    rewrite find_absent; [reflexivity|exact Hnin].
Qed.

Lemma writePlan_consumed (tb : string) (plan : list Touch) (db : Collection) :
  NoDup (map Material._id db) ->
  NoDup (map (fun p : Touch => Material._id (fst p)) plan) ->
  (forall p, In p plan -> In (fst p) db) ->
  writePlan tb plan db = consumed tb plan db.
Proof.
  intros Hdb Hplan Hin. rewrite writePlan_map by exact Hplan.
  unfold consumed, touchFor, Touch in *. apply map_ext_in. intros b Hb.
  destruct (find (fun p => hasId (Material._id b) (fst p)) plan)
    as [[m [d w]]|] eqn:F; [|reflexivity].
  apply find_some in F. destruct F as [Hp E]. unfold hasId in E.
  apply Nat.eqb_eq in E. cbn [option_map fst snd] in *.
  now rewrite (unique_id db m b Hdb (Hin _ Hp) Hb E).
Qed.

Lemma writePlan_ids (tb : string) (plan : list Touch) :
  forall db : Collection,
    map Material._id (writePlan tb plan db) = map Material._id db.
Proof.
  induction plan as [|p plan IH]; intros db; [reflexivity|].
  unfold writePlan in *. cbn [fold_left]. now rewrite IH, replaceOne_ids.
Qed.



(** ** What a take does, case by case *)

Lemma take_served (env : Env) (body : TakeBody) (db : Collection) :
  findAvailable (take_matCode body) db <> [] ->
  JS.ltb (JS.Fin (totalAvailable (findAvailable (take_matCode body) db)))
    (take_quantity body) = false ->
  let plan := loopPlan (usageDate env (take_date body)) 0
                (findAvailable (take_matCode body) db) (take_quantity body) in
  take env body db
  = (if forallb (fun p => Material.validate (fst p)) plan
     then TakenOk else MaterialInvalid,
     writePlan (take_takenBy body) (savedPart plan) db).
Proof.
  intros Hne Hlt plan. unfold take.
  destruct (findAvailable (take_matCode body) db) as [|m ms] eqn:E;
    [congruence|].
  rewrite Hlt, takeLoop_writes. reflexivity.
Qed.

Lemma take_refused (env : Env) (body : TakeBody) (db : Collection) :
  findAvailable (take_matCode body) db <> [] ->
  JS.ltb (JS.Fin (totalAvailable (findAvailable (take_matCode body) db)))
    (take_quantity body) = true ->
  take env body db = (InsufficientStock, db).
Proof.
  intros Hne Hlt. unfold take.
  destruct (findAvailable (take_matCode body) db) as [|m ms] eqn:E;
    [congruence|].
  now rewrite Hlt.
Qed.

Lemma take_none (env : Env) (body : TakeBody) (db : Collection) :
  findAvailable (take_matCode body) db = [] ->
  take env body db = (MaterialNotFound, db).
Proof. intros E. unfold take. now rewrite E. Qed.

Lemma plan_in_stock (env : Env) (body : TakeBody) (db : Collection) (p : Touch) :
  In p (loopPlan (usageDate env (take_date body)) 0
          (findAvailable (take_matCode body) db) (take_quantity body)) ->
  In (fst p) db /\ inStock (take_matCode body) (fst p)
  /\ 0 < fst (snd p) <= Material.availableQuantity (fst p).
Proof.
  intros Hp.
  apply loopPlan_bounds in Hp; [|apply findAvailable_positive].
  destruct Hp as [Hin Hd]. apply findAvailable_In in Hin. tauto.
Qed.

(** The collection after a take, whatever is asked for: as it was when the
    take is refused, and otherwise each document the loop got to save
    deducted once. *)
Lemma take_effect (env : Env) (body : TakeBody) (db : Collection) :
  NoDup (map Material._id db) ->
  snd (take env body db) = db
  \/ snd (take env body db)
     = consumed (take_takenBy body)
         (savedPart
            (loopPlan (usageDate env (take_date body)) 0
               (findAvailable (take_matCode body) db) (take_quantity body)))
         db.
Proof.
  intros Hnd.
  destruct (findAvailable (take_matCode body) db) as [|m ms] eqn:E.
  - left. now rewrite take_none.
  - assert (Hne : findAvailable (take_matCode body) db <> [])
      by (rewrite E; discriminate).
    rewrite <- E.
    destruct (JS.ltb (JS.Fin (totalAvailable (findAvailable (take_matCode body) db)))
                (take_quantity body)) eqn:L.
    + left. now rewrite take_refused.
    + right. rewrite take_served by assumption. cbn [snd].
      apply writePlan_consumed.
      * exact Hnd.
      * apply savedPart_ids, loopPlan_ids, findAvailable_ids, Hnd.
      * intros p Hp. apply savedPart_In in Hp.
        now apply plan_in_stock in Hp.
Qed.



Lemma twoBatches_ids : NoDup (map Material._id twoBatches).
Proof.
  repeat constructor; cbn; intuition discriminate.
Defined.




(** The scenarios of the specification: 120 taken from A (100, day 1) and
    B (50, day 5) empties A and leaves 30 in B, with one usage event each;
    200 is refused and nothing changes. *)
Example scenario_take_120 :
  map (fun b => (Material._id b, Material.availableQuantity b,
                 map Usage.quantity (Material.usageHistory b)))
      (snd (take (envAt (dayMs 9) 3%nat) (takeCEM1 120) twoBatches))
  = [(1%nat, 0, [100]); (2%nat, 30, [20])].
Proof. reflexivity. Qed.

Example scenario_take_200 :
  take (envAt (dayMs 9) 3%nat) (takeCEM1 200) twoBatches
  = (InsufficientStock, twoBatches).
Proof. reflexivity. Qed.

(** The same take of 120 once the bulk update has put the code on hold:
    the answer is 500 and nothing is deducted. *)
Example scenario_take_on_hold :
  let held := snd (updateStatus "CEM1" "on hold" twoBatches) in
  take (envAt (dayMs 9) 3%nat) (takeCEM1 120) held = (MaterialInvalid, held).
Proof. reflexivity. Qed.

(** A save that fails in the middle of the loop: batch A was saved, the
    batch after it has no name; the answer is 500 with A emptied. *)
Example scenario_take_half_applied :
  take (envAt (dayMs 9) 3%nat) (takeCEM1 120) [batchA; unnamedBatch]
  = (MaterialInvalid,
     [Material.mk 1%nat (Some "Cement"%string) "CEM1" 100 0 None (dayMs 1) ""
        "store" "Available" [Usage.mk "mason" 100 (dayMs 9)] site;
      unnamedBatch]).
Proof. reflexivity. Qed.

(** ** Refusals of a take *)


Lemma twoBatches_inStock : exists b, In b twoBatches /\ inStock "CEM1" b.
Proof.
  eexists. split; [left; reflexivity|]. split; reflexivity.
Defined.



(** C8: a take answers MaterialNotFound exactly when no batch of the
    material code has remaining quantity above zero, whatever quantity is
    asked for, and then the collection is as it was. *)
Theorem take_not_found_iff (env : Env) (body : TakeBody) (db : Collection) :
  (fst (take env body db) = MaterialNotFound
   <-> forall b, In b db -> ~ inStock (take_matCode body) b)
  /\ (fst (take env body db) = MaterialNotFound -> take env body db = (MaterialNotFound, db)).
Proof.
  destruct (findAvailable (take_matCode body) db) as [|m ms] eqn:E.
  - rewrite take_none by exact E. split; [|reflexivity]. split; [|reflexivity].
    intros _. now apply findAvailable_nil.
  - assert (Hne : findAvailable (take_matCode body) db <> [])
      by (rewrite E; discriminate).
    assert (Hno : ~ (forall b, In b db -> ~ inStock (take_matCode body) b)).
    { intros H. apply findAvailable_nil in H. congruence. }
    assert (Hfst : fst (take env body db) <> MaterialNotFound).
    { destruct (JS.ltb (JS.Fin (totalAvailable
                                  (findAvailable (take_matCode body) db)))
                  (take_quantity body)) eqn:L.
      - rewrite take_refused by assumption. discriminate.
      - rewrite take_served by assumption. cbn [fst].
        destruct (forallb _ _); discriminate. }
    split; [split|]; intros H; contradiction.
Qed.

(** C9: a take of zero or of a negative quantity from a material code with
    a batch in stock answers success and changes nothing. *)
Theorem take_non_positive_noop (env : Env) (body : TakeBody) (db : Collection)
  (Q : Z) :
  take_quantity body = JS.Fin Q ->
  Q <= 0 ->
  (exists b, In b db /\ inStock (take_matCode body) b) ->
  take env body db = (TakenOk, db).
Proof.
  intros HQ Hle Hex. apply findAvailable_nonempty in Hex.
  rewrite take_served.
  - rewrite HQ, loopPlan_done by exact Hle. reflexivity.
  - exact Hex.
  - rewrite HQ, totalAvailable_sumZ. cbn [JS.ltb]. apply Z.ltb_ge.
    pose proof (sumZ_available_nonneg _
                  (findAvailable_positive (take_matCode body) db)).
    lia.
Qed.

Lemma take_non_positive_noop_witness :
  take (envAt (dayMs 9) 3%nat) (takeCEM1 (-3)) twoBatches = (TakenOk, twoBatches).
Proof.
  apply (take_non_positive_noop _ (takeCEM1 (-3)) twoBatches (-3) eq_refl).
  - vm_compute; discriminate.
  - exact twoBatches_inStock.
Defined.

(** ** Invariants of the ledger *)

Lemma add_stores_nothing (env : Env) (body : AddBody) (file : option string)
  (db : Collection) :
  snd (add env body file db) = db.
Proof.
  unfold add.
  destruct (negb (existsb (Nat.eqb (add_projectAssigned body)) (projects env)));
    [reflexivity|].
  change (Material.validate (newMaterial env body file)) with false.
  reflexivity.
Qed.

Section RunInvariant.

Variable P : Material.t -> Prop.
Variable ok : Env * Request -> Prop.

(** [P] survives a deduction of at most what remains. *)
Hypothesis P_deduct :
  forall tb d w b,
    P b -> 0 < d <= Material.availableQuantity b -> P (deduct tb d w b).

Hypothesis P_status :
  forall env code status b,
    ok (env, PutStatus code status) -> P b -> P (setStatusUpdate status b).

Lemma replaceOne_Forall (m : Material.t) (db : Collection) :
  P m -> Forall P db -> Forall P (replaceOne m db).
Proof.
  intros Hm H. unfold replaceOne. apply Forall_forall. intros x Hx.
  apply in_map_iff in Hx. destruct Hx as [d [Hd Hin]].
  destruct (hasId (Material._id m) d); subst; auto.
  revert Hin. now apply Forall_forall.
Qed.

Lemma writePlan_Forall (tb : string) (plan : list Touch) :
  forall db : Collection,
    (forall p, In p plan ->
               P (fst p) /\ 0 < fst (snd p) <= Material.availableQuantity (fst p)) ->
    Forall P db ->
    Forall P (writePlan tb plan db).
Proof.
  induction plan as [|p plan IH]; intros db Hp Hdb; [exact Hdb|].
  unfold writePlan in *. cbn [fold_left]. apply IH.
  - intros x Hx. apply Hp. now right.
  - apply replaceOne_Forall; [|exact Hdb].
    destruct (Hp p (or_introl eq_refl)) as [H1 H2]. now apply P_deduct.
Qed.

Lemma take_Forall (env : Env) (body : TakeBody) (db : Collection) :
  Forall P db -> Forall P (snd (take env body db)).
Proof.
  intros Hdb.
  destruct (findAvailable (take_matCode body) db) as [|m ms] eqn:E.
  - now rewrite take_none.
  - assert (Hne : findAvailable (take_matCode body) db <> [])
      by (rewrite E; discriminate).
    destruct (JS.ltb (JS.Fin (totalAvailable
                                (findAvailable (take_matCode body) db)))
                (take_quantity body)) eqn:L.
    + now rewrite take_refused.
    + rewrite take_served by assumption. cbn [snd].
      apply writePlan_Forall; [|exact Hdb].
      intros p Hp. apply savedPart_In, plan_in_stock in Hp.
      destruct Hp as [Hin [_ Hd]]. split; [|exact Hd].
      revert Hin. now apply Forall_forall.
Qed.

Lemma handle_Forall (env : Env) (r : Request) (db : Collection) :
  ok (env, r) -> Forall P db -> Forall P (snd (handle env r db)).
Proof.
  intros Hok Hdb. destruct r as [body file|body|code status|id|code]; cbn [handle].
  - now rewrite add_stores_nothing.
  - now apply take_Forall.
  - unfold updateStatus. destruct (negb _); [exact Hdb|].
    assert (H : Forall P (updateMany code (setStatusUpdate status) db)).
    { unfold updateMany. apply Forall_forall. intros x Hx.
      apply in_map_iff in Hx. destruct Hx as [d [Hd Hin]].
      assert (Pd : P d) by (revert Hin; now apply Forall_forall).
      destruct (hasCode code d); subst; [|exact Pd].
      now apply (P_status env code). }
    now destruct (Nat.eqb _ _).
  - unfold deleteById. destruct (existsb _ db); [|exact Hdb]. cbn [snd].
    apply Forall_forall. intros x Hx. apply filter_In in Hx.
    destruct Hx as [Hx _]. revert Hx. now apply Forall_forall.
  - unfold deleteByCode. destruct (Nat.eqb _ _); [exact Hdb|]. cbn [snd].
    apply Forall_forall. intros x Hx. apply filter_In in Hx.
    destruct Hx as [Hx _]. revert Hx. now apply Forall_forall.
Qed.

Lemma run_Forall (rs : list (Env * Request)) :
  forall db : Collection,
    Forall ok rs -> Forall P db -> Forall P (run rs db).
Proof.
  induction rs as [|[env r] rs IH]; intros db Hok Hdb; [exact Hdb|].
  inversion Hok; subst. unfold run in *. cbn [fold_left fst snd].
  apply IH; [assumption|]. now apply handle_Forall.
Qed.

End RunInvariant.

(** The collection keeps its identifiers unique along every run. *)
Lemma handle_ids (env : Env) (r : Request) (db : Collection) :
  NoDup (map Material._id db) ->
  NoDup (map Material._id (snd (handle env r db))).
Proof.
  intros Hdb. destruct r as [body file|body|code status|id|code]; cbn [handle].
  - now rewrite add_stores_nothing.
  - destruct (findAvailable (take_matCode body) db) as [|m ms] eqn:E.
    + now rewrite take_none.
    + assert (Hne : findAvailable (take_matCode body) db <> [])
        by (rewrite E; discriminate).
      destruct (JS.ltb (JS.Fin (totalAvailable
                                  (findAvailable (take_matCode body) db)))
                  (take_quantity body)) eqn:L.
      * now rewrite take_refused.
      * rewrite take_served by assumption. cbn [snd]. now rewrite writePlan_ids.
  - unfold updateStatus. destruct (negb _); [exact Hdb|].
    assert (H : map Material._id (updateMany code (setStatusUpdate status) db)
                = map Material._id db).
    { unfold updateMany. rewrite map_map. apply map_ext. intros d.
      destruct (hasCode code d); [|reflexivity].
      unfold setStatusUpdate. now destruct (String.eqb status "out of stock"). }
    destruct (Nat.eqb _ _); cbn [snd]; now rewrite H.
  - unfold deleteById. destruct (existsb _ db); [|exact Hdb].
    now apply filter_ids.
  - unfold deleteByCode. destruct (Nat.eqb _ _); [exact Hdb|].
    now apply filter_ids.
Qed.

Lemma run_unique_ids (rs : list (Env * Request)) :
  forall db : Collection,
    NoDup (map Material._id db) -> NoDup (map Material._id (run rs db)).
Proof.
  induction rs as [|[env r] rs IH]; intros db Hdb; [exact Hdb|].
  unfold run in *. cbn [fold_left fst snd]. apply IH. now apply handle_ids.
Qed.

Lemma usedQuantity_deduct (tb : string) (d : Z) (w : JS.Date) (b : Material.t) :
  usedQuantity (deduct tb d w b) = usedQuantity b + d.
Proof.
  unfold usedQuantity, deduct. cbn [Material.usageHistory].
  rewrite map_app, sumZ_app.
  change (sumZ (map Usage.quantity [Usage.mk tb d w])) with (d + 0). lia.
Qed.

Lemma withinDelivered_deduct (tb : string) (d : Z) (w : JS.Date)
  (b : Material.t) :
  withinDelivered b -> 0 < d <= Material.availableQuantity b ->
  withinDelivered (deduct tb d w b).
Proof. unfold withinDelivered, deduct; cbn. lia. Qed.

Lemma ledgerBalanced_deduct (tb : string) (d : Z) (w : JS.Date)
  (b : Material.t) :
  ledgerBalanced b -> ledgerBalanced (deduct tb d w b).
Proof.
  unfold ledgerBalanced. intros H. rewrite usedQuantity_deduct.
  cbn [deduct Material.availableQuantity Material.quantity]. lia.
Qed.

Lemma run_nothing_stored (rs : list (Env * Request)) :
  Forall isAddOrTake rs -> run rs [] = [].
Proof.
  induction rs as [|[env r] rs IH]; intros H; [reflexivity|].
  inversion H as [|? ? Hr Hrs]; subst. unfold run in *. cbn [fold_left fst snd].
  destruct r as [body file|body|code status|id|code]; cbn in Hr;
    try contradiction; cbn [handle].
  - rewrite add_stores_nothing. now apply IH.
  - rewrite take_none by reflexivity. now apply IH.
Qed.

(** C3: along every sequence of additions and takes from the empty
    collection every batch keeps [0 <= remaining <= delivered] (no batch is
    ever stored: the [save()] of POST /add fails the validators of the
    schema, for the handler sets no name).  The interval is an invariant
    besides: from any collection in which it holds, it holds after every
    sequence of requests of the five routes. *)
Theorem remaining_within_delivered :
  (forall rs : list (Env * Request),
      Forall isAddOrTake rs -> Forall withinDelivered (run rs []))
  /\ (forall (db : Collection) (rs : list (Env * Request)),
        Forall withinDelivered db -> Forall withinDelivered (run rs db)).
Proof.
  assert (H : forall (db : Collection) (rs : list (Env * Request)),
            Forall withinDelivered db -> Forall withinDelivered (run rs db)).
  { intros db rs Hdb.
    apply (run_Forall withinDelivered (fun _ => True)); auto.
    - intros tb d w b Hb Hd. now apply withinDelivered_deduct.
    - intros env code status b _ Hb. unfold withinDelivered, setStatusUpdate in *.
      destruct (String.eqb status "out of stock"); cbn; lia.
    - apply Forall_forall. auto. }
  split; [|exact H]. intros rs _. apply H. constructor.
Qed.

Lemma remaining_within_delivered_witness :
  Forall withinDelivered
    (run [(envAt (dayMs 9) 3%nat, PostTake (takeCEM1 120));
          (envAt (dayMs 10) 4%nat, PutStatus "CEM1" "out of stock")]
       twoBatches).
Proof.
  apply (proj2 remaining_within_delivered).
  repeat constructor; unfold withinDelivered; cbn; lia.
Defined.

(** C4, as the code has it: from a collection in which every batch has
    [remaining = delivered - sum of its usage events], the remaining
    quantities being integers the doubles hold exactly, the equation holds
    after every sequence of additions, takes of such integers (or of NaN),
    deletions and bulk updates to a status other than out of stock. *)
Theorem ledger_balanced (db : Collection) (rs : list (Env * Request)) :
  Forall ledgerBalanced db ->
  Forall (fun b => JS.isSafeInteger (Material.availableQuantity b)) db ->
  Forall takesSafeInteger rs ->
  Forall notOutOfStockUpdate rs ->
  Forall ledgerBalanced (run rs db).
Proof.
  intros Hdb _ _ Hrs.
  apply (run_Forall ledgerBalanced notOutOfStockUpdate); auto.
  - intros tb d w b Hb _. now apply ledgerBalanced_deduct.
  - intros env code status b Hok Hb. unfold notOutOfStockUpdate in Hok.
    cbn in Hok. unfold setStatusUpdate.
    destruct (String.eqb_spec status "out of stock"); [contradiction|].
    exact Hb.
Qed.

Lemma ledger_balanced_witness :
  Forall ledgerBalanced
    (run [(envAt (dayMs 9) 3%nat, PostTake (takeCEM1 120));
          (envAt (dayMs 9) 4%nat, PutStatus "CEM1" "on hold");
          (envAt (dayMs 10) 5%nat, PostTake (takeCEM1 10));
          (envAt (dayMs 11) 6%nat, addA)]
       twoBatches).
Proof.
  apply ledger_balanced.
  - repeat constructor.
  - repeat constructor; vm_compute; discriminate.
  - repeat constructor; vm_compute; discriminate.
  - repeat constructor; unfold notOutOfStockUpdate; cbn; discriminate.
Defined.

(** C4 as stated fails: on a stored batch with 100 delivered, 100
    remaining and no usage event, the bulk update to the status out of
    stock sets the remaining quantity to zero and records no usage event. *)
Lemma ledger_balanced_counterexample :
  ~ (forall (db : Collection) (rs : list (Env * Request)),
        Forall ledgerBalanced db -> Forall ledgerBalanced (run rs db)).
Proof.
  intros H.
  specialize (H [batchA] [(envAt (dayMs 3) 2%nat, PutStatus "CEM1" "out of stock")]).
  assert (Hdb : Forall ledgerBalanced [batchA]) by (repeat constructor).
  apply H in Hdb. inversion Hdb as [|b l Hb _]; subst.
  unfold ledgerBalanced in Hb. cbn in Hb. lia.
Qed.
(** ** The bulk status update *)

Lemma matchedCount_zero (code : string) (db : Collection) :
  matchedCount code db = 0%nat
  <-> (forall b, In b db -> Material.matCode b <> code).
Proof.
  unfold matchedCount. split.
  - intros H b Hb E.
    assert (Hin : In b (filter (hasCode code) db)).
    { apply filter_In. split; [exact Hb|]. now apply String.eqb_eq. }
    destruct (filter (hasCode code) db); [contradiction | discriminate].
  - intros H. destruct (filter (hasCode code) db) as [|b l] eqn:E; [reflexivity|].
    assert (Hin : In b (filter (hasCode code) db)) by (rewrite E; now left).
    apply filter_In in Hin. destruct Hin as [Hb Hc].
    apply String.eqb_eq in Hc. exfalso. exact (H b Hb Hc).
Qed.

Lemma includes_whitelist (status : string) :
  includes statusWhitelist status = true
  <-> status = "available"%string \/ status = "on hold"%string
      \/ status = "out of stock"%string.
Proof.
  unfold includes, statusWhitelist. cbn [existsb].
  rewrite !orb_true_iff, !String.eqb_eq. intuition discriminate.
Qed.

(** C7: for an accepted status, the update gives every batch of the code
    that status, and remaining quantity zero as well when the status is
    out of stock; usage events, delivered quantity and all other fields of
    those batches, and all other batches, stay as they were; without a
    batch of the code the answer is the not-found error. *)
Theorem updateStatus_sets_all (matCode status : string) (db : Collection) :
  In status statusWhitelist ->
  snd (updateStatus matCode status db)
  = map (fun b =>
           if String.eqb (Material.matCode b) matCode then
             Material.mk (Material._id b) (Material.name b)
               (Material.matCode b) (Material.quantity b)
               (if String.eqb status "out of stock" then 0
                else Material.availableQuantity b)
               (Material.amount b) (Material.date b) (Material.document b)
               (Material.addedBy b) status (Material.usageHistory b)
               (Material.projectAssigned b)
           else b) db
  /\ ((forall b, In b db -> Material.matCode b <> matCode) ->
      updateStatus matCode status db = (NoMaterialsWithCode, db))
  /\ ((exists b, In b db /\ Material.matCode b = matCode) ->
      fst (updateStatus matCode status db)
      = Res 200 (JMessage ("Status updated for matCode " ++ matCode)%string)).
Proof.
  intros Hst.
  assert (Hinc : includes statusWhitelist status = true).
  { apply includes_whitelist. cbn in Hst. intuition. }
  unfold updateStatus. rewrite Hinc. cbn [negb].
  assert (Hmap : updateMany matCode (setStatusUpdate status) db
                 = map (fun b =>
           if String.eqb (Material.matCode b) matCode then
             Material.mk (Material._id b) (Material.name b)
               (Material.matCode b) (Material.quantity b)
               (if String.eqb status "out of stock" then 0
                else Material.availableQuantity b)
               (Material.amount b) (Material.date b) (Material.document b)
               (Material.addedBy b) status (Material.usageHistory b)
               (Material.projectAssigned b)
           else b) db).
  { unfold updateMany. apply map_ext. intros b. unfold hasCode.
    destruct (String.eqb (Material.matCode b) matCode); [|reflexivity].
    unfold setStatusUpdate. now destruct (String.eqb status "out of stock"). }
  split; [|split].
  - now destruct (Nat.eqb _ _).
  - intros Hno. rewrite (proj2 (matchedCount_zero matCode db) Hno).
    cbn [Nat.eqb]. f_equal. unfold updateMany. rewrite <- (map_id db) at 2.
    apply map_ext_in. intros b Hb. specialize (Hno b Hb).
    apply String.eqb_neq in Hno. unfold hasCode. now rewrite Hno.
  - intros [b [Hb Hc]].
    destruct (Nat.eqb (matchedCount matCode db) 0) eqn:E; [|reflexivity].
    apply Nat.eqb_eq in E.
    exfalso. exact (proj1 (matchedCount_zero matCode db) E b Hb Hc).
Qed.

Lemma updateStatus_sets_all_witness :
  snd (updateStatus "CEM1" "out of stock" twoBatches)
  = map (Material.setStatus "out of stock")
      (map (Material.setAvailableQuantity 0) twoBatches).
Proof.
  rewrite (proj1 (updateStatus_sets_all "CEM1" "out of stock" twoBatches
                    (or_intror (or_intror (or_introl eq_refl))))).
  reflexivity.
Defined.

(** C10: the update accepts the three lowercase strings and no other; a
    refused status changes nothing; the spellings of the schema's enum are
    refused, so a status the update writes is never a value of the enum. *)
Theorem updateStatus_whitelist (matCode status : string) (db : Collection) :
  (fst (updateStatus matCode status db) = InvalidStatus
   <-> ~ (status = "available"%string \/ status = "on hold"%string
          \/ status = "out of stock"%string))
  /\ (fst (updateStatus matCode status db) = InvalidStatus ->
      updateStatus matCode status db = (InvalidStatus, db))
  /\ (In status Material.statusEnum ->
      updateStatus matCode status db = (InvalidStatus, db))
  /\ (fst (updateStatus matCode status db) <> InvalidStatus ->
      ~ In status Material.statusEnum
      /\ forall b, In b (snd (updateStatus matCode status db)) ->
                   Material.matCode b = matCode ->
                   Material.status b = status
                   /\ ~ In (Material.status b) Material.statusEnum).
Proof.
  assert (Henum : In status Material.statusEnum ->
                  includes statusWhitelist status = false).
  { cbn. intros [<-|[<-|[<-|[]]]]; reflexivity. }
  pose proof (includes_whitelist status) as Hw.
  unfold updateStatus.
  destruct (includes statusWhitelist status) eqn:Hinc; cbn [negb].
  - assert (Hacc : status = "available"%string \/ status = "on hold"%string
                   \/ status = "out of stock"%string) by (now apply Hw).
    assert (Hne : ~ In status Material.statusEnum).
    { intros H. apply Henum in H. discriminate. }
    split; [|split; [|split]].
    + destruct (Nat.eqb _ _); cbn [fst]; split;
        try discriminate; intros H; contradiction.
    + destruct (Nat.eqb _ _); cbn [fst]; discriminate.
    + intros H. contradiction.
    + intros _. split; [exact Hne|]. intros b Hb Hc.
      assert (Hb' : In b (updateMany matCode (setStatusUpdate status) db))
        by (destruct (Nat.eqb _ _); exact Hb).
      unfold updateMany in Hb'. apply in_map_iff in Hb'.
      destruct Hb' as [d [Hd Hin]].
      destruct (hasCode matCode d) eqn:Ed.
      * subst b. unfold setStatusUpdate.
        destruct (String.eqb status "out of stock"); cbn; auto.
      * subst b. unfold hasCode in Ed. apply String.eqb_neq in Ed. contradiction.
  - split; [|split; [|split]].
    + split; [|reflexivity]. intros _ H. apply Hw in H. discriminate.
    + reflexivity.
    + reflexivity.
    + intros H. exfalso. apply H. reflexivity.
Qed.

(** ** The month of the report *)

Lemma year_length (y : Z) :
  JS.DayFromYear (y + 1)
  = JS.DayFromYear y + 365 + (if JS.InLeapYear y then 1 else 0).
Proof.
  unfold JS.DayFromYear, JS.InLeapYear.
  destruct (Z.eqb_spec (y mod 4) 0) as [H4|H4];
    destruct (Z.eqb_spec (y mod 100) 0) as [H100|H100];
    destruct (Z.eqb_spec (y mod 400) 0) as [H400|H400];
    cbn [andb orb negb];
    Z.div_mod_to_equations; lia.
Qed.

Lemma month_length (leap : bool) (mn : Z) :
  0 <= mn < 11 ->
  JS.monthStart (mn + 1) leap = JS.monthStart mn leap + daysInMonth leap mn.
Proof.
  intros H.
  assert (C : mn = 0 \/ mn = 1 \/ mn = 2 \/ mn = 3 \/ mn = 4 \/ mn = 5 \/ mn = 6
              \/ mn = 7 \/ mn = 8 \/ mn = 9 \/ mn = 10) by lia.
  destruct leap;
    repeat (destruct C as [->|C]; [reflexivity|]); subst; reflexivity.
Qed.

(** The first day of the month after month [month - 1] is MakeDay's day for
    month [month]: the days of a month are those of the calendar. *)
Lemma MakeDay_next_month (year month : Z) :
  let y := year + (month - 1) / 12 in
  let mn := (month - 1) mod 12 in
  JS.MakeDay year month 1
  = JS.MakeDay year (month - 1) 1 + daysInMonth (JS.InLeapYear y) mn.
Proof.
  intros y mn. unfold JS.MakeDay. fold y mn.
  assert (Hmn : 0 <= mn < 12) by (apply Z.mod_pos_bound; lia).
  destruct (Z.eq_dec mn 11) as [E|E].
  - assert (Hq : month / 12 = (month - 1) / 12 + 1)
      by (unfold mn in E; Z.div_mod_to_equations; lia).
    assert (Hr : month mod 12 = 0)
      by (unfold mn in E; Z.div_mod_to_equations; lia).
    rewrite Hq, Hr, E.
    replace (year + ((month - 1) / 12 + 1)) with (y + 1) by (unfold y; lia).
    rewrite year_length. cbn [JS.monthStart daysInMonth].
    destruct (JS.InLeapYear y), (JS.InLeapYear (y + 1)); lia.
  - assert (Hq : month / 12 = (month - 1) / 12)
      by (unfold mn in *; Z.div_mod_to_equations; lia).
    assert (Hr : month mod 12 = mn + 1)
      by (unfold mn in *; Z.div_mod_to_equations; lia).
    rewrite Hq, Hr. fold y. rewrite month_length by lia. lia.
Qed.

(** [getMonthRange] in local time: [start] is midnight of the first day of
    the month, [end] is 23:59:59.999 of its last day, each resolved with the
    offset in force at that local time. *)
Lemma getMonthRange_local (tza : JS.Date -> Z) (year month : Z) :
  let y := JS.fullYear year + (month - 1) / 12 in
  let mn := (month - 1) mod 12 in
  let firstDay := JS.DayFromYear y + JS.monthStart mn (JS.InLeapYear y) in
  let lastDay := firstDay + daysInMonth (JS.InLeapYear y) mn - 1 in
  let localStart := firstDay * JS.msPerDay in
  let localEnd := lastDay * JS.msPerDay + 86399999 in
  getMonthRange tza year month
  = (localStart - tza localStart, localEnd - tza localEnd).
Proof.
  intros y mn firstDay lastDay localStart localEnd.
  pose proof (MakeDay_next_month (JS.fullYear year) month) as Hnext.
  cbv zeta in Hnext. fold y mn in Hnext.
  assert (H1 : JS.MakeDay (JS.fullYear year) (month - 1) 1 = firstDay)
    by (unfold JS.MakeDay; fold y mn; unfold firstDay; lia).
  assert (Hs : JS.MakeDate (JS.MakeDay (JS.fullYear year) (month - 1) 1)
                 (JS.MakeTime 0 0 0 0) = localStart).
  { rewrite H1. unfold JS.MakeDate, JS.MakeTime, localStart. lia. }
  assert (He : JS.MakeDate (JS.MakeDay (JS.fullYear year) month 0)
                 (JS.MakeTime 23 59 59 999) = localEnd).
  { assert (H0 : JS.MakeDay (JS.fullYear year) month 0
                 = JS.MakeDay (JS.fullYear year) month 1 - 1)
      by (unfold JS.MakeDay; lia).
    rewrite H0, Hnext, H1. unfold JS.MakeDate, JS.MakeTime, localEnd, lastDay.
    lia. }
  unfold getMonthRange, JS.newDate. cbv zeta. now rewrite Hs, He.
Qed.


(** ** The monthly report *)

Lemma materialReport_readonly (env : Env) (projectId : ObjectId)
  (month year : option Z) (db : Collection) :
  snd (materialReport env projectId month year db) = db.
Proof.
  unfold materialReport. destruct month, year; reflexivity.
Qed.

Lemma materialReport_lines (env : Env) (projectId : ObjectId)
  (month year : Z) (db : Collection) :
  materialReport env projectId (Some month) (Some year) db
  = (ReportOk
       (map (reportLine (fst (getMonthRange (LocalTZAat env) year month))
                        (snd (getMonthRange (LocalTZAat env) year month)))
            (ofProject projectId db)),
     db).
Proof.
  reflexivity.
Qed.

Lemma withinRange_leb (start end_ d : JS.Date) :
  withinRange start end_ d = (start <=? d) && (d <=? end_).
Proof. unfold withinRange. now rewrite Z.geb_leb. Qed.


Lemma lines_of_batches (R : Material.t -> Line.t -> Prop)
  (start end_ : JS.Date) (batches : list Material.t) :
  (forall mat, R mat (reportLine start end_ mat)) ->
  Forall2 R batches (map (reportLine start end_) batches).
Proof.
  intros H. induction batches as [|b l IH]; cbn [map]; constructor; auto.
Qed.


(** The scenario of the specification: a batch delivered on day 3 of a
    month, used on day 20 of that month and on day 2 of the next one. *)
Example scenario_report :
  let line := reportLine (fst (getMonthRange (fun _ => 0) 1970 1))
                (snd (getMonthRange (fun _ => 0) 1970 1)) january1970 in
  Line.monthlyAdded line = 100 /\ Line.monthlyConsumed line = 30.
Proof. split; reflexivity. Qed.


(** C6: in the report of a project and month, with one line per batch of
    the project, a line's monthlyAdded is the delivered quantity of its
    batch when the batch's date lies within [[start, end]] of the month
    (midnight of its first day to 23:59:59.999 of its last, local time),
    and zero otherwise; the report returns the collection as it found it,
    whatever its parameters. *)
Theorem report_monthlyAdded (env : Env) (projectId : ObjectId)
  (month year : Z) (db : Collection) :
  let y := JS.fullYear year + (month - 1) / 12 in
  let mn := (month - 1) mod 12 in
  let firstDay := JS.DayFromYear y + JS.monthStart mn (JS.InLeapYear y) in
  let lastDay := firstDay + daysInMonth (JS.InLeapYear y) mn - 1 in
  let localStart := firstDay * JS.msPerDay in
  let localEnd := lastDay * JS.msPerDay + 86399999 in
  let start := localStart - LocalTZAat env localStart in
  let end_ := localEnd - LocalTZAat env localEnd in
  JS.inTimeRange start ->
  JS.inTimeRange end_ ->
  (exists lines,
      materialReport env projectId (Some month) (Some year) db
      = (ReportOk lines, db)
      /\ Forall2
           (fun mat line =>
              Line.matCode line = Material.matCode mat
              /\ Line.monthlyAdded line
                 = if (start <=? Material.date mat) && (Material.date mat <=? end_)
                   then Material.quantity mat else 0)
           (filter (fun b => Nat.eqb (Material.projectAssigned b) projectId) db)
           lines)
  /\ (forall m y', snd (materialReport env projectId m y' db) = db).
Proof.
  intros y mn firstDay lastDay localStart localEnd start end_ _ _.
  split.
  - eexists. split.
    + rewrite materialReport_lines, getMonthRange_local. cbn [fst snd].
      reflexivity.
    + apply lines_of_batches. intros mat. split; [reflexivity|].
      unfold reportLine. cbn [Line.monthlyAdded]. now rewrite withinRange_leb.
  - intros m y'. apply materialReport_readonly.
Qed.

Lemma report_monthlyAdded_witness :
  exists lines,
    materialReport (envAt (dayMs 40) 1%nat) site (Some 1) (Some 1970)
      [january1970] = (ReportOk lines, [january1970])
    /\ Forall2
         (fun mat line =>
            Line.matCode line = Material.matCode mat
            /\ Line.monthlyAdded line
               = if (0 <=? Material.date mat) && (Material.date mat <=? 2678399999)
                 then Material.quantity mat else 0)
         [january1970] lines.
Proof.
  refine (proj1 (report_monthlyAdded (envAt (dayMs 40) 1%nat) site 1 1970
                   [january1970] _ _)).
  - vm_compute; discriminate.
  - vm_compute; discriminate.
Defined.

(** * Further properties of the material routes *)

(** ** What a take accounts for *)

Lemma accounted_deduct (tb : string) (d : Z) (w : JS.Date) (b : Material.t) :
  accounted (deduct tb d w b) = accounted b.
Proof.
  unfold accounted. rewrite usedQuantity_deduct.
  cbn [deduct Material.availableQuantity]. lia.
Qed.

Lemma codeSum_map (f : Material.t -> Z) (g : Material.t -> Material.t)
  (code : string) (db : Collection) :
  (forall b, Material.matCode (g b) = Material.matCode b) ->
  (forall b, f (g b) = f b) ->
  codeSum f code (map g db) = codeSum f code db.
Proof.
  intros Hc Hf. unfold codeSum. induction db as [|b db IH]; [reflexivity|].
  cbn [map filter].
  assert (E : hasCode code (g b) = hasCode code b)
    by (unfold hasCode; now rewrite Hc).
  rewrite E. destruct (hasCode code b); cbn [map];
    rewrite ?sumZ_cons, ?Hf; now rewrite IH.
Qed.

Lemma filter_code_map_fixed (g : Material.t -> Material.t) (code : string)
  (db : Collection) :
  (forall b, Material.matCode (g b) = Material.matCode b) ->
  (forall b, In b db -> hasCode code b = true -> g b = b) ->
  filter (hasCode code) (map g db) = filter (hasCode code) db.
Proof.
  intros Hc Hfix. induction db as [|b db IH]; [reflexivity|].
  cbn [map filter].
  assert (E : hasCode code (g b) = hasCode code b)
    by (unfold hasCode; now rewrite Hc).
  rewrite E. destruct (hasCode code b) eqn:Eb.
  - rewrite (Hfix b (or_introl eq_refl) Eb). f_equal.
    apply IH. intros x Hx. apply Hfix. now right.
  - apply IH. intros x Hx. apply Hfix. now right.
Qed.

Lemma touchFor_In (plan : list Touch) (db : Collection)
  (b : Material.t) (x : Z * JS.Date) :
  NoDup (map Material._id db) ->
  (forall p, In p plan -> In (fst p) db) ->
  In b db -> touchFor plan b = Some x -> In (b, x) plan.
Proof.
  intros Hnd Hin Hb H. unfold touchFor, Touch in *.
  destruct (find (fun p => hasId (Material._id b) (fst p)) plan)
    as [[m x']|] eqn:F; [|discriminate].
  cbn in H. injection H as ->. apply find_some in F. destruct F as [Hp E].
  unfold hasId in E. cbn in E. apply Nat.eqb_eq in E.
  now rewrite <- (unique_id db m b Hnd (Hin _ Hp) Hb E).
Qed.

Lemma In_touchFor (plan : list Touch) (b : Material.t) (x : Z * JS.Date) :
  NoDup (map (fun p : Touch => Material._id (fst p)) plan) ->
  In (b, x) plan -> touchFor plan b = Some x.
Proof.
  unfold touchFor. induction plan as [|[m e] plan IH]; intros Hnd Hin;
    [contradiction|].
  inversion Hnd as [|? ? Hfresh Hrest]; subst. cbn [find fst].
  destruct Hin as [Hin|Hin].
  - injection Hin as -> ->. unfold hasId. now rewrite Nat.eqb_refl.
  - unfold hasId at 1. destruct (Nat.eqb (Material._id m) (Material._id b)) eqn:E.
    + apply Nat.eqb_eq in E. exfalso. apply Hfresh. cbn [fst]. rewrite E.
      apply in_map_iff. now exists (b, x).
    + now apply IH.
Qed.

Lemma saved_in_stock (env : Env) (body : TakeBody) (db : Collection) (p : Touch) :
  In p (savedPart
          (loopPlan (usageDate env (take_date body)) 0
             (findAvailable (take_matCode body) db) (take_quantity body))) ->
  In (fst p) db /\ Material.matCode (fst p) = take_matCode body.
Proof.
  intros Hp. apply savedPart_In, plan_in_stock in Hp.
  unfold inStock in Hp. tauto.
Qed.

(** X1: a take never creates or loses stock, whether it is served, refused
    or stopped by a save that fails: with remaining quantities in stock and
    a requested quantity that are integers the doubles hold exactly (or a
    request of NaN), for every material code remaining plus used over its
    batches is what it was; batches of other codes are as they were;
    identifiers and delivered quantities stay in place. *)
Theorem take_conserves (env : Env) (body : TakeBody) (db : Collection)
  (code : string) :
  NoDup (map Material._id db) ->
  (forall b, In b db -> inStock (take_matCode body) b ->
             JS.isSafeInteger (Material.availableQuantity b)) ->
  match take_quantity body with
  | JS.Fin q => JS.isSafeInteger q
  | JS.NaN => True
  end ->
  codeSum accounted code (snd (take env body db)) = codeSum accounted code db
  /\ (code <> take_matCode body ->
      filter (hasCode code) (snd (take env body db)) = filter (hasCode code) db)
  /\ map Material._id (snd (take env body db)) = map Material._id db
  /\ map Material.quantity (snd (take env body db)) = map Material.quantity db.
Proof.
  intros Hnd _ _. destruct (take_effect env body db Hnd) as [-> | ->]; [tauto|].
  set (plan := savedPart _). unfold consumed.
  assert (Hplan : forall p, In p plan ->
            In (fst p) db /\ Material.matCode (fst p) = take_matCode body)
    by (intros p Hp; now apply (saved_in_stock env body db)).
  split; [|split; [|split]].
  - apply codeSum_map; intros b; destruct (touchFor plan b) as [[d w]|];
      auto using accounted_deduct.
  - intros Hne. apply filter_code_map_fixed.
    + intros b. now destruct (touchFor plan b) as [[d w]|].
    + intros b Hb Hcode. destruct (touchFor plan b) as [[d w]|] eqn:F;
        [|reflexivity].
      apply (touchFor_In plan db b _ Hnd) in F; auto;
        [|intros p Hp; now apply Hplan].
      apply Hplan in F. cbn in F. destruct F as [_ F].
      unfold hasCode in Hcode. apply String.eqb_eq in Hcode. congruence.
  - rewrite map_map. apply map_ext. intros b.
    now destruct (touchFor plan b) as [[d w]|].
  - rewrite map_map. apply map_ext. intros b.
    now destruct (touchFor plan b) as [[d w]|].
Qed.

Lemma take_conserves_witness :
  codeSum accounted "CEM1"
    (snd (take (envAt (dayMs 9) 3%nat) (mkTake "CEM1" JS.NaN "mason" None)
            twoBatches))
  = codeSum accounted "CEM1" twoBatches.
Proof.
  refine (proj1 (take_conserves (envAt (dayMs 9) 3%nat)
                   (mkTake "CEM1" JS.NaN "mason" None) twoBatches "CEM1"
                   twoBatches_ids _ I)).
  intros b [<-|[<-|[]]] _; vm_compute; discriminate.
Defined.

(** ** Oldest first *)

Lemma dateAscending_strongly (ms : list Material.t) :
  Sorted dateAscending ms -> StronglySorted dateAscending ms.
Proof.
  apply Sorted_StronglySorted. intros a b c. unfold dateAscending. lia.
Qed.

(** The loop takes less than all a document has only from the last
    document it changes: whoever is older than a saved document was emptied
    and saved before it. *)
Lemma saved_older_emptied (when : nat -> JS.Date) (ms : list Material.t) :
  forall (q : JS.Num) (k : nat) (b1 b2 : Material.t) (x2 : Z * JS.Date),
    StronglySorted dateAscending ms ->
    In b1 ms ->
    In (b2, x2) (savedPart (loopPlan when k ms q)) ->
    Material.date b1 < Material.date b2 ->
    exists w1,
      In (b1, (Material.availableQuantity b1, w1))
        (savedPart (loopPlan when k ms q)).
Proof.
  induction ms as [|m ms IH]; intros q k b1 b2 x2 Hs H1 H2 Hlt;
    [contradiction|].
  inversion Hs as [|? ? Hs' Hall]; subst.
  assert (Hhead : b2 = m -> False).
  { intros ->. destruct H1 as [<-|H1]; [lia|].
    rewrite Forall_forall in Hall. specialize (Hall b1 H1).
    unfold dateAscending in Hall. lia. }
  cbn [loopPlan] in *.
  destruct (JS.leb q (JS.Fin 0)); [contradiction|].
  assert (Hgo : forall q',
            In (b2, x2)
              (savedPart ((m, (Material.availableQuantity m, when k))
                            :: loopPlan when (S k) ms q')) ->
            exists w1,
              In (b1, (Material.availableQuantity b1, w1))
                (savedPart ((m, (Material.availableQuantity m, when k))
                              :: loopPlan when (S k) ms q'))).
  { intros q' H. cbn [savedPart fst] in *.
    destruct (Material.validate m); [|contradiction].
    destruct H as [H|H]; [injection H as <- _; now elim Hhead|].
    destruct H1 as [<-|H1]; [exists (when k); now left|].
    destruct (IH q' (S k) b1 b2 x2 Hs' H1 H Hlt) as [w1 Hw].
    exists w1. now right. }
  destruct q as [z|]; [|now apply Hgo].
  destruct (Material.availableQuantity m >=? z); [|now apply Hgo].
  cbn [savedPart fst] in H2. destruct (Material.validate m); [|contradiction].
  destruct H2 as [H2|[]]. injection H2 as <- _. now elim Hhead.
Qed.

Lemma stored_In (db : Collection) (b : Material.t) :
  NoDup (map Material._id db) -> In b db -> stored (Material._id b) db = Some b.
Proof.
  intros Hnd Hb. unfold stored.
  destruct (find (hasId (Material._id b)) db) as [x|] eqn:F.
  - apply find_some in F. destruct F as [Hx E]. unfold hasId in E.
    apply Nat.eqb_eq in E. now rewrite (unique_id db x b Hnd Hx Hb E).
  - apply (find_none _ _ F) in Hb. unfold hasId in Hb.
    now rewrite Nat.eqb_refl in Hb.
Qed.

Lemma stored_map (g : Material.t -> Material.t) (id : ObjectId)
  (db : Collection) :
  (forall b, Material._id (g b) = Material._id b) ->
  stored id (map g db) = option_map g (stored id db).
Proof.
  intros Hg. unfold stored. induction db as [|b db IH]; [reflexivity|].
  cbn [map find]. unfold hasId at 1 3. rewrite Hg.
  now destruct (Nat.eqb (Material._id b) id).
Qed.

(** X2: first in, first out.  Whatever is asked for, when a take changes a
    batch, every batch of the material code that was in stock with an
    earlier date is left with nothing. *)
Theorem take_oldest_first (env : Env) (body : TakeBody) (db : Collection)
  (b1 b2 : Material.t) :
  NoDup (map Material._id db) ->
  In b1 db -> In b2 db ->
  inStock (take_matCode body) b1 ->
  Material.date b1 < Material.date b2 ->
  stored (Material._id b2) (snd (take env body db)) <> Some b2 ->
  exists b1',
    stored (Material._id b1) (snd (take env body db)) = Some b1'
    /\ Material.availableQuantity b1' = 0.
Proof.
  intros Hnd H1 H2 Hs Hlt Hch.
  destruct (take_effect env body db Hnd) as [E | E]; rewrite E in *.
  { exfalso. apply Hch. now apply stored_In. }
  set (ms := findAvailable (take_matCode body) db) in *.
  set (plan := savedPart _) in *.
  assert (Hids : NoDup (map (fun p : Touch => Material._id (fst p)) plan))
    by (apply savedPart_ids, loopPlan_ids, findAvailable_ids, Hnd).
  assert (Hplan : forall p, In p plan -> In (fst p) db)
    by (intros p Hp; now apply (saved_in_stock env body db) in Hp).
  assert (Hg : forall b,
            Material._id
              match touchFor plan b with
              | Some (d, w) => deduct (take_takenBy body) d w b
              | None => b
              end = Material._id b)
    by (intros b; now destruct (touchFor plan b) as [[d w]|]).
  unfold consumed in *. rewrite stored_map in * by exact Hg.
  rewrite (stored_In db b2 Hnd H2) in Hch.
  rewrite (stored_In db b1 Hnd H1). cbn [option_map] in *.
  destruct (touchFor plan b2) as [x2|] eqn:F2; [|now elim Hch].
  apply (touchFor_In plan db b2 x2 Hnd Hplan H2) in F2.
  destruct (saved_older_emptied (usageDate env (take_date body)) ms
              (take_quantity body) 0%nat b1 b2 x2) as [w1 F1]; auto.
  - apply dateAscending_strongly, sortByDate_sorted.
  - apply findAvailable_In. tauto.
  - rewrite (In_touchFor plan b1 _ Hids F1).
    eexists. split; [reflexivity|]. cbn. lia.
Qed.

Lemma take_oldest_first_witness :
  exists b1',
    stored 1%nat
      (snd (take (envAt (dayMs 9) 3%nat) (takeCEM1 120) twoBatches)) = Some b1'
    /\ Material.availableQuantity b1' = 0.
Proof.
  refine (take_oldest_first (envAt (dayMs 9) 3%nat) (takeCEM1 120) twoBatches
            batchA batchB twoBatches_ids _ _ _ _ _).
  - left; reflexivity.
  - right; left; reflexivity.
  - split; reflexivity.
  - reflexivity.
  - vm_compute. discriminate.
Defined.

(** ** A save that fails *)

Lemma savedPart_valid (plan : list Touch) (p : Touch) :
  In p (savedPart plan) -> Material.validate (fst p) = true.
Proof.
  induction plan as [|x plan IH]; [contradiction|]. cbn [savedPart].
  destruct (Material.validate (fst x)) eqn:E; [|contradiction].
  intros [<-|H]; [exact E | auto].
Qed.

(** X11: a take writes no document that fails the validators of the
    schema, and it answers 500 only over such a document.  A stored batch
    that fails validation is after the take as it was before; a take that
    answers 500 found, in stock under its material code, a batch that
    fails validation; and when every batch in stock under the code passes,
    the answer is not 500.  What was saved before the failing document
    stays saved: the answer 500 does not mean that nothing was deducted. *)
Theorem take_spares_invalid (env : Env) (body : TakeBody) (db : Collection) :
  NoDup (map Material._id db) ->
  (forall b, In b db -> Material.validate b = false ->
             stored (Material._id b) (snd (take env body db)) = Some b)
  /\ (code (fst (take env body db)) = 500 ->
      exists b, In b db /\ inStock (take_matCode body) b
                /\ Material.validate b = false)
  /\ ((forall b, In b db -> inStock (take_matCode body) b ->
                 Material.validate b = true) ->
      code (fst (take env body db)) <> 500).
Proof.
  intros Hnd.
  assert (H500 : code (fst (take env body db)) = 500 ->
                 exists b, In b db /\ inStock (take_matCode body) b
                           /\ Material.validate b = false).
  { destruct (findAvailable (take_matCode body) db) as [|m ms] eqn:E.
    - rewrite take_none by exact E. discriminate.
    - assert (Hne : findAvailable (take_matCode body) db <> [])
        by (rewrite E; discriminate).
      clear E.
      destruct (JS.ltb (JS.Fin (totalAvailable
                                  (findAvailable (take_matCode body) db)))
                  (take_quantity body)) eqn:L.
      + rewrite take_refused by assumption. discriminate.
      + rewrite take_served by assumption. cbv zeta. cbn [fst].
        match goal with
        | |- context [forallb ?f ?l] => destruct (forallb f l) eqn:F
        end; [cbn [code TakenOk]; discriminate|].
        intros _.
        assert (Hex : exists p,
                  In p (loopPlan (usageDate env (take_date body)) 0
                          (findAvailable (take_matCode body) db)
                          (take_quantity body))
                  /\ Material.validate (fst p) = false).
        { clear - F. induction (loopPlan _ _ _ _) as [|x l IH];
            [discriminate|].
          cbn [forallb] in F. apply andb_false_iff in F.
          destruct F as [F|F]; [exists x; split; [now left | exact F]|].
          destruct (IH F) as [p [Hp Hv]]. exists p. split; [now right | exact Hv]. }
        destruct Hex as [p [Hp Hv]]. apply plan_in_stock in Hp.
        exists (fst p). tauto. }
  split; [|split; [exact H500|]].
  - intros b Hb Hv.
    destruct (take_effect env body db Hnd) as [-> | ->];
      [now apply stored_In|].
    set (plan := savedPart _).
    assert (Hplan : forall p, In p plan -> In (fst p) db)
      by (intros p Hp; now apply (saved_in_stock env body db) in Hp).
    unfold consumed. rewrite stored_map
      by (intros x; now destruct (touchFor plan x) as [[d w]|]).
    rewrite (stored_In db b Hnd Hb). cbn [option_map].
    destruct (touchFor plan b) as [x|] eqn:F; [|reflexivity].
    apply (touchFor_In plan db b x Hnd Hplan Hb) in F.
    apply savedPart_valid in F. cbn [fst] in F. congruence.
  - intros Hall H. destruct (H500 H) as [b [Hb [Hs Hv]]].
    rewrite (Hall b Hb Hs) in Hv. discriminate.
Qed.

Lemma take_spares_invalid_witness :
  stored 2%nat
    (snd (take (envAt (dayMs 9) 3%nat) (takeCEM1 120) [batchA; unnamedBatch]))
  = Some unnamedBatch.
Proof.
  refine (proj1 (take_spares_invalid (envAt (dayMs 9) 3%nat) (takeCEM1 120)
                   [batchA; unnamedBatch] _) unnamedBatch _ _).
  - repeat constructor; cbn; intuition discriminate.
  - right; left; reflexivity.
  - reflexivity.
Defined.

(** ** The status and the take *)

Section FindCommutes.

(** A change of documents that leaves alone what the find of a take reads. *)
Variable g : Material.t -> Material.t.

Hypothesis g_code : forall b, Material.matCode (g b) = Material.matCode b.
Hypothesis g_available :
  forall b, Material.availableQuantity (g b) = Material.availableQuantity b.
Hypothesis g_date : forall b, Material.date (g b) = Material.date b.

Lemma insertByDate_map (m : Material.t) (l : list Material.t) :
  insertByDate (g m) (map g l) = map g (insertByDate m l).
Proof.
  induction l as [|x l IH]; [reflexivity|]. cbn [map insertByDate].
  rewrite !g_date. destruct (Material.date m <=? Material.date x);
    cbn [map]; [reflexivity | now rewrite IH].
Qed.

Lemma findAvailable_map (code : string) (db : Collection) :
  findAvailable code (map g db) = map g (findAvailable code db).
Proof.
  unfold findAvailable. induction db as [|b db IH]; [reflexivity|].
  cbn [map filter].
  assert (E : hasCode code (g b) && (0 <? Material.availableQuantity (g b))
              = hasCode code b && (0 <? Material.availableQuantity b))
    by (unfold hasCode; now rewrite g_code, g_available).
  rewrite E.
  destruct (hasCode code b && (0 <? Material.availableQuantity b)); [|exact IH].
  unfold sortByDate in *. cbn [fold_right]. rewrite IH.
  apply insertByDate_map.
Qed.

Lemma totalAvailable_map (ms : list Material.t) :
  totalAvailable (map g ms) = totalAvailable ms.
Proof.
  rewrite !totalAvailable_sumZ, map_map. f_equal. apply map_ext, g_available.
Qed.

End FindCommutes.

Lemma loopPlan_first (when : nat -> JS.Date) (k : nat) (m : Material.t)
  (ms : list Material.t) (q : JS.Num) :
  JS.leb q (JS.Fin 0) = false ->
  exists x rest, loopPlan when k (m :: ms) q = (m, x) :: rest.
Proof.
  intros Hq. cbn [loopPlan]. rewrite Hq. destruct q as [z|].
  - destruct (Material.availableQuantity m >=? z); eauto.
  - eauto.
Qed.

(** X3: the statuses that PUT /status writes stop consumption.  After a
    bulk update of a material code to available or to on hold, a take of a
    positive integer that the stock of the code covers (within the integers
    the doubles hold exactly) is answered 500 and deducts nothing: no batch
    of the code passes the validators of the schema any more, so the first
    [save()] fails. *)
Theorem status_update_blocks_take (env : Env) (body : TakeBody)
  (db : Collection) (status : string) (Q : Z) :
  status = "available"%string \/ status = "on hold"%string ->
  take_quantity body = JS.Fin Q ->
  0 < Q ->
  Q <= inStockRemaining (take_matCode body) db ->
  JS.isSafeInteger (inStockRemaining (take_matCode body) db) ->
  let db' := snd (updateStatus (take_matCode body) status db) in
  code (fst (take env body db')) = 500
  /\ snd (take env body db') = db'
  /\ (forall b, In b db' -> Material.matCode b = take_matCode body ->
                Material.status b = status /\ Material.validate b = false).
Proof.
  intros Hst HQ Hpos Hle _ db'.
  set (g := fun d => if hasCode (take_matCode body) d
                     then Material.setStatus status d else d).
  assert (Hdb' : db' = map g db).
  { unfold db', updateStatus.
    assert (Hinc : includes statusWhitelist status = true)
      by (destruct Hst as [-> | ->]; reflexivity).
    rewrite Hinc. cbn [negb].
    assert (Hupd : updateMany (take_matCode body) (setStatusUpdate status) db
                   = map g db).
    { unfold updateMany, g. apply map_ext. intros d. unfold setStatusUpdate.
      now destruct Hst as [-> | ->]. }
    rewrite Hupd. now destruct (Nat.eqb _ _). }
  assert (Hinvalid : forall b, Material.validate (Material.setStatus status b)
                               = false).
  { intros b. unfold Material.validate. cbn [Material.status Material.setStatus].
    replace (existsb (String.eqb status) Material.statusEnum) with false
      by (destruct Hst as [-> | ->]; reflexivity).
    now rewrite andb_false_r. }
  assert (Hfind : findAvailable (take_matCode body) db'
                  = map g (findAvailable (take_matCode body) db)).
  { rewrite Hdb'. apply findAvailable_map; intros b; unfold g;
      now destruct (hasCode (take_matCode body) b). }
  assert (Htotal : totalAvailable (findAvailable (take_matCode body) db')
                   = inStockRemaining (take_matCode body) db).
  { rewrite Hfind, totalAvailable_map, totalAvailable_inStock; [reflexivity|].
    intros b; unfold g; now destruct (hasCode (take_matCode body) b). }
  destruct (findAvailable (take_matCode body) db) as [|m ms] eqn:E.
  { rewrite <- totalAvailable_inStock, E in Hle. cbn in Hle. lia. }
  assert (Hm : hasCode (take_matCode body) m = true).
  { assert (Hin : In m (findAvailable (take_matCode body) db))
      by (rewrite E; now left).
    apply findAvailable_In in Hin. destruct Hin as [_ [Hc _]].
    unfold hasCode. now apply String.eqb_eq. }
  assert (Htake : take env body db' = (MaterialInvalid, db')).
  { rewrite take_served.
    - rewrite Hfind. cbn [map].
      destruct (loopPlan_first (usageDate env (take_date body)) 0 (g m)
                  (map g ms) (take_quantity body)) as [x [rest Hplan]].
      { rewrite HQ. cbn [JS.leb]. apply Z.leb_gt. lia. }
      assert (Hgm : Material.validate (g m) = false)
        by (unfold g; rewrite Hm; apply Hinvalid).
      rewrite Hplan. cbn [forallb savedPart fst]. rewrite Hgm. reflexivity.
    - rewrite Hfind. discriminate.
    - rewrite Htotal, HQ. cbn [JS.ltb]. apply Z.ltb_ge. lia. }
  rewrite Htake. split; [reflexivity|]. split; [reflexivity|].
  intros b Hb Hc. rewrite Hdb' in Hb. apply in_map_iff in Hb.
  destruct Hb as [d [<- Hd]]. unfold g in *.
  destruct (hasCode (take_matCode body) d) eqn:Ed.
  - split; [reflexivity | apply Hinvalid].
  - unfold hasCode in Ed. apply String.eqb_neq in Ed. contradiction.
Qed.

Lemma status_update_blocks_take_witness :
  code (fst (take (envAt (dayMs 9) 3%nat) (takeCEM1 120)
               (snd (updateStatus "CEM1" "available" twoBatches)))) = 500.
Proof.
  refine (proj1 (status_update_blocks_take (envAt (dayMs 9) 3%nat)
                   (takeCEM1 120) twoBatches "available" 120
                   (or_introl eq_refl) eq_refl _ _ _)).
  - reflexivity.
  - vm_compute; discriminate.
  - vm_compute; discriminate.
Defined.

(** ** POST /add never stores *)

(** X7: POST /add stores nothing.  It answers 400 when the project does
    not exist and 500 otherwise, the [save()] of the new document failing
    the validators of the schema (the handler sets no name), and the
    collection is as it was; so no sequence of additions and takes from the
    empty collection ever holds a batch. *)
Theorem add_never_stores (env : Env) (body : AddBody) (file : option string)
  (db : Collection) :
  snd (add env body file db) = db
  /\ Material.validate (newMaterial env body file) = false
  /\ (code (fst (add env body file db)) = 400
      <-> ~ In (add_projectAssigned body) (projects env))
  /\ (code (fst (add env body file db)) = 500
      <-> In (add_projectAssigned body) (projects env))
  /\ (forall rs : list (Env * Request),
        Forall isAddOrTake rs -> run rs [] = []).
Proof.
  split; [apply add_stores_nothing|]. split; [reflexivity|].
  assert (Hex : existsb (Nat.eqb (add_projectAssigned body)) (projects env) = true
                <-> In (add_projectAssigned body) (projects env)).
  { rewrite existsb_exists. split.
    - intros [x [Hx E]]. apply Nat.eqb_eq in E. now subst.
    - intros H. exists (add_projectAssigned body). split; [exact H|].
      apply Nat.eqb_refl. }
  unfold add.
  destruct (existsb (Nat.eqb (add_projectAssigned body)) (projects env)) eqn:E;
    cbn [negb].
  - change (Material.validate (newMaterial env body file)) with false.
    cbn [negb fst code MaterialInvalid].
    split; [|split].
    + split; [discriminate|]. intros H. exfalso. apply H. now apply Hex.
    + split; [intros _; now apply Hex | reflexivity].
    + apply run_nothing_stored.
  - cbn [fst code]. split; [|split].
    + split; [|reflexivity]. intros _ H. apply Hex in H. discriminate.
    + split; [discriminate|]. intros H. apply Hex in H. discriminate.
    + apply run_nothing_stored.
Qed.

(** ** Deleting, and overriding, stock *)

(** X4: DELETE /by-code removes every batch of the code, whatever remains in
    them, and nothing else; it answers 404 exactly when there was no such
    batch; afterwards a take of that code finds no material. *)
Theorem deleteByCode_removes_all (env : Env) (body : TakeBody)
  (db : Collection) (matCode : string) :
  let db' := snd (deleteByCode matCode db) in
  (forall b, In b db' <-> In b db /\ Material.matCode b <> matCode)
  /\ (forall code, code <> matCode ->
        filter (hasCode code) db' = filter (hasCode code) db)
  /\ (code (fst (deleteByCode matCode db)) = 404
      <-> forall b, In b db -> Material.matCode b <> matCode)
  /\ (take_matCode body = matCode -> take env body db' = (MaterialNotFound, db')).
Proof.
  intros db'.
  assert (Hdb' : db' = filter (fun d => negb (hasCode matCode d)) db).
  { unfold db', deleteByCode.
    destruct (Nat.eqb (matchedCount matCode db) 0) eqn:E; [|reflexivity].
    cbn [snd]. apply Nat.eqb_eq in E.
    pose proof (proj1 (matchedCount_zero matCode db) E) as Hno.
    symmetry. apply forallb_filter_id. apply forallb_forall. intros b Hb.
    specialize (Hno b Hb). apply String.eqb_neq in Hno.
    unfold hasCode. now rewrite Hno. }
  assert (Hin : forall b, In b db' <-> In b db /\ Material.matCode b <> matCode).
  { intros b. rewrite Hdb', filter_In. unfold hasCode.
    rewrite negb_true_iff, String.eqb_neq. tauto. }
  split; [exact Hin|]. split; [|split].
  - intros code Hne. rewrite Hdb'. clear - Hne.
    induction db as [|b db IH]; [reflexivity|]. cbn [filter].
    destruct (hasCode matCode b) eqn:Em; cbn [negb filter].
    + unfold hasCode in *. apply String.eqb_eq in Em.
      assert (Ec : String.eqb (Material.matCode b) code = false)
        by (apply String.eqb_neq; congruence).
      rewrite Ec. now apply IH.
    + destruct (hasCode code b); [f_equal|]; now apply IH.
  - unfold deleteByCode.
    destruct (Nat.eqb (matchedCount matCode db) 0) eqn:E; cbn [fst code].
    + apply Nat.eqb_eq in E. split; [|reflexivity].
      intros _. now apply matchedCount_zero.
    + apply Nat.eqb_neq in E. split; [discriminate|].
      intros H. apply matchedCount_zero in H. contradiction.
  - intros Hc. apply take_none.
    apply findAvailable_nil. intros b Hb [Hcode _].
    apply Hin in Hb. destruct Hb as [_ Hb]. congruence.
Qed.

(** X5: DELETE /:id on a collection with unique identifiers removes the one
    document with that identifier and keeps all others in place, and answers
    404 leaving the collection as it was when there is none. *)
Theorem deleteById_removes_one (id : ObjectId) (db : Collection) :
  NoDup (map Material._id db) ->
  let r := deleteById id db in
  stored id (snd r) = None
  /\ (forall b, In b (snd r) <-> In b db /\ Material._id b <> id)
  /\ (forall b, stored id db = Some b ->
        code (fst r) = 200 /\ Permutation db (b :: snd r))
  /\ (stored id db = None -> code (fst r) = 404 /\ snd r = db).
Proof.
  intros Hnd r.
  assert (Hex : existsb (hasId id) db = true <-> exists b, stored id db = Some b).
  { unfold stored. rewrite existsb_exists. split.
    - intros [x [Hx E]]. destruct (find (hasId id) db) as [b|] eqn:F; [eauto|].
      apply (find_none _ _ F) in Hx. congruence.
    - intros [b F]. apply find_some in F. eauto. }
  assert (Hsnd : snd r = filter (fun d => negb (hasId id d)) db).
  { unfold r, deleteById. destruct (existsb (hasId id) db) eqn:E; [reflexivity|].
    cbn [snd]. symmetry. apply forallb_filter_id. apply forallb_forall.
    intros b Hb. destruct (hasId id b) eqn:Eb; [|reflexivity].
    assert (existsb (hasId id) db = true)
      by (apply existsb_exists; eauto). congruence. }
  assert (Hin : forall b, In b (snd r) <-> In b db /\ Material._id b <> id).
  { intros b. rewrite Hsnd, filter_In. unfold hasId.
    rewrite negb_true_iff, Nat.eqb_neq. tauto. }
  split; [|split; [exact Hin|split]].
  - unfold stored. destruct (find (hasId id) (snd r)) as [b|] eqn:F;
      [|reflexivity].
    apply find_some in F. destruct F as [Hb E]. apply Hin in Hb.
    unfold hasId in E. apply Nat.eqb_eq in E. tauto.
  - intros b Hb. split.
    + unfold r, deleteById.
      rewrite (proj2 Hex (ex_intro _ b Hb)). reflexivity.
    + rewrite Hsnd. unfold stored in Hb. clear Hex Hin Hsnd r.
      induction db as [|x db IH]; [discriminate|].
      inversion Hnd as [|? ? Hfresh Hrest]; subst. cbn [find filter] in *.
      destruct (hasId id x) eqn:Ex; cbn [negb].
      * injection Hb as <-. apply perm_skip.
        rewrite forallb_filter_id; [apply Permutation_refl|].
        apply forallb_forall. intros y Hy. apply negb_true_iff.
        unfold hasId in *. apply Nat.eqb_eq in Ex. apply Nat.eqb_neq.
        intros Ey. apply Hfresh. rewrite Ex, <- Ey. now apply in_map.
      * eapply perm_trans; [apply perm_skip, IH; auto|]. apply perm_swap.
  - intros Hnone. unfold r, deleteById.
    destruct (existsb (hasId id) db) eqn:E; [|now split].
    destruct (proj1 Hex eq_refl) as [b Eb]. congruence.
Qed.

Lemma deleteById_removes_one_witness :
  stored 1%nat (snd (deleteById 1%nat twoBatches)) = None.
Proof.
  exact (proj1 (deleteById_removes_one 1%nat twoBatches twoBatches_ids)).
Defined.

(** X6: the out-of-stock override empties the material code: after it the
    aggregate remaining of the code is zero and a take of the code finds no
    material, while the usage recorded so far is kept. *)
Theorem outOfStock_then_take (env : Env) (body : TakeBody) (db : Collection) :
  let db' := snd (updateStatus (take_matCode body) "out of stock" db) in
  aggregateRemaining (take_matCode body) db' = 0
  /\ take env body db' = (MaterialNotFound, db')
  /\ codeSum usedQuantity (take_matCode body) db'
     = codeSum usedQuantity (take_matCode body) db.
Proof.
  intros db'.
  assert (Hdb' : db' = updateMany (take_matCode body)
                         (setStatusUpdate "out of stock") db).
  { unfold db', updateStatus. cbn [includes statusWhitelist existsb negb].
    replace (includes statusWhitelist "out of stock") with true by reflexivity.
    cbn [negb]. now destruct (Nat.eqb _ _). }
  assert (Hzero : forall b, In b db' -> Material.matCode b = take_matCode body ->
                            Material.availableQuantity b = 0).
  { intros b Hb Hc. rewrite Hdb' in Hb. unfold updateMany in Hb.
    apply in_map_iff in Hb. destruct Hb as [d [<- Hd]].
    destruct (hasCode (take_matCode body) d) eqn:E; [reflexivity|].
    unfold hasCode in E. apply String.eqb_neq in E. contradiction. }
  split; [|split].
  - unfold aggregateRemaining.
    assert (H : forall b, In b (filter (hasCode (take_matCode body)) db') ->
                          Material.availableQuantity b = 0).
    { intros b Hb. apply filter_In in Hb. destruct Hb as [Hb Hc].
      apply Hzero; [exact Hb|]. now apply String.eqb_eq. }
    induction (filter (hasCode (take_matCode body)) db') as [|x l IH];
      [reflexivity|].
    cbn [map]. rewrite sumZ_cons, (H x (or_introl eq_refl)), IH; [lia|].
    intros b Hb. apply H. now right.
  - apply take_none.
    apply findAvailable_nil. intros b Hb [Hc Hpos].
    rewrite (Hzero b Hb Hc) in Hpos. lia.
  - rewrite Hdb'. unfold updateMany. apply codeSum_map; intros b;
      destruct (hasCode (take_matCode body) b); reflexivity.
Qed.
(** ** The totals per material code *)

Lemma groupTotal_addToGroup_same (k : string) (v : Z) (groups : list (string * Z)) :
  groupTotal k (addToGroup k v groups)
  = Some (match groupTotal k groups with Some s => s + v | None => v end).
Proof.
  unfold groupTotal. induction groups as [|[k' s] rest IH]; cbn [addToGroup find fst].
  - now rewrite String.eqb_refl.
  - destruct (String.eqb k' k) eqn:E; cbn [find fst]; rewrite E; [reflexivity|].
    exact IH.
Qed.

Lemma groupTotal_addToGroup_other (k k0 : string) (v : Z)
  (groups : list (string * Z)) :
  k0 <> k -> groupTotal k0 (addToGroup k v groups) = groupTotal k0 groups.
Proof.
  intros Hne. unfold groupTotal.
  induction groups as [|[k' s] rest IH]; cbn [addToGroup find fst].
  - assert (E : String.eqb k k0 = false) by (apply String.eqb_neq; congruence).
    now rewrite E.
  - destruct (String.eqb k' k) eqn:E; cbn [find fst].
    + apply String.eqb_eq in E. subst k'.
      assert (E0 : String.eqb k k0 = false) by (apply String.eqb_neq; congruence).
      now rewrite E0.
    + destruct (String.eqb k' k0); [reflexivity | exact IH].
Qed.

Lemma addToGroup_key_in (k x : string) (v : Z) (groups : list (string * Z)) :
  In x (map fst (addToGroup k v groups)) -> x = k \/ In x (map fst groups).
Proof.
  induction groups as [|[k' s] rest IH]; cbn [addToGroup map fst]; intros Hx.
  - destruct Hx as [<-|[]]. now left.
  - destruct (String.eqb k' k); cbn [map fst] in Hx.
    + now right.
    + destruct Hx as [<-|Hx]; [right; now left|].
      destruct (IH Hx); [now left | right; now right].
Qed.

Lemma addToGroup_keys (k : string) (v : Z) (groups : list (string * Z)) :
  NoDup (map fst groups) -> NoDup (map fst (addToGroup k v groups)).
Proof.
  induction groups as [|[k' s] rest IH]; cbn [addToGroup map fst]; intros Hnd.
  - repeat constructor. intros [].
  - inversion Hnd as [|? ? Hfresh Hrest]; subst.
    destruct (String.eqb k' k) eqn:E; cbn [map fst]; [now constructor|].
    constructor; [|now apply IH].
    intros Hx. apply addToGroup_key_in in Hx. apply String.eqb_neq in E.
    destruct Hx; [congruence | contradiction].
Qed.

Section GroupSum.

Context {A : Type}.
Variable key : A -> string.
Variable val : A -> Z.

Lemma groupSum_keys (l : list A) :
  forall groups : list (string * Z),
    NoDup (map fst groups) ->
    NoDup (map fst
             (fold_left (fun gs x => addToGroup (key x) (val x) gs) l groups)).
Proof.
  induction l as [|x l IH]; intros groups Hnd; [exact Hnd|].
  cbn [fold_left]. apply IH. now apply addToGroup_keys.
Qed.

Lemma groupSum_fold_total (k : string) (l : list A) :
  forall groups : list (string * Z),
    groupTotal k (fold_left (fun gs x => addToGroup (key x) (val x) gs) l groups)
    = match groupTotal k groups, filter (fun x => String.eqb (key x) k) l with
      | None, [] => None
      | o, xs =>
          Some (match o with Some s => s | None => 0 end + sumZ (map val xs))
      end.
Proof.
  induction l as [|x l IH]; intros groups; cbn [fold_left filter].
  - destruct (groupTotal k groups) as [s|]; [|reflexivity].
    f_equal. unfold sumZ; simpl. lia.
  - rewrite IH. destruct (String.eqb (key x) k) eqn:E.
    + apply String.eqb_eq in E. rewrite E, groupTotal_addToGroup_same.
      cbn [map]. rewrite sumZ_cons.
      destruct (groupTotal k groups) as [s|];
        destruct (filter (fun x0 => String.eqb (key x0) k) l);
        f_equal; cbn [map]; rewrite ?sumZ_cons; unfold sumZ; simpl; lia.
    + apply String.eqb_neq in E.
      rewrite groupTotal_addToGroup_other by congruence. reflexivity.
Qed.

Lemma groupSum_total (k : string) (l : list A) :
  groupTotal k (groupSum key val l)
  = match filter (fun x => String.eqb (key x) k) l with
    | [] => None
    | xs => Some (sumZ (map val xs))
    end.
Proof.
  unfold groupSum. rewrite groupSum_fold_total. cbn [groupTotal find option_map].
  now destruct (filter (fun x => String.eqb (key x) k) l).
Qed.

End GroupSum.

Lemma groupTotal_In (k : string) (t : Z) (groups : list (string * Z)) :
  NoDup (map fst groups) ->
  (In (k, t) groups <-> groupTotal k groups = Some t).
Proof.
  unfold groupTotal. induction groups as [|[k' s] rest IH]; intros Hnd.
  - cbn. split; [intros [] | discriminate].
  - inversion Hnd as [|? ? Hfresh Hrest]; subst. cbn [find fst In].
    destruct (String.eqb k' k) eqn:E.
    + apply String.eqb_eq in E. subst k'. cbn [option_map snd]. split.
      * intros [H|H]; [now injection H as -> |].
        exfalso. apply Hfresh. apply in_map_iff. now exists (k, t).
      * intros H. injection H as ->. now left.
    + apply String.eqb_neq in E. rewrite <- (IH Hrest). split.
      * intros [H|H]; [injection H as -> ->; congruence | exact H].
      * intros H. now right.
Qed.

(** X8: GET /total-availability lists each material code of the collection
    once, with the aggregate remaining of the code; a code without a batch
    is not listed. *)
Theorem totalAvailability_per_code (db : Collection) :
  NoDup (map fst (totalAvailability db))
  /\ forall code t,
       In (code, t) (totalAvailability db)
       <-> (exists b, In b db /\ Material.matCode b = code)
           /\ t = aggregateRemaining code db.
Proof.
  assert (Hnd : NoDup (map fst (totalAvailability db)))
    by (apply groupSum_keys; constructor).
  split; [exact Hnd|]. intros code t.
  rewrite (groupTotal_In code t _ Hnd). unfold totalAvailability.
  rewrite groupSum_total. unfold aggregateRemaining.
  change (fun x => String.eqb (Material.matCode x) code) with (hasCode code).
  destruct (filter (hasCode code) db) as [|x xs] eqn:F.
  - split; [discriminate|]. intros [[b [Hb Hc]] _].
    assert (Hin : In b (filter (hasCode code) db)).
    { apply filter_In. split; [exact Hb|]. now apply String.eqb_eq. }
    rewrite F in Hin. contradiction.
  - split.
    + intros H. injection H as <-. split; [|reflexivity].
      assert (Hin : In x (filter (hasCode code) db)) by (rewrite F; now left).
      apply filter_In in Hin. destruct Hin as [Hx Hc].
      exists x. split; [exact Hx|]. now apply String.eqb_eq.
    + intros [_ ->]. reflexivity.
Qed.

Lemma unwind_filter_code (code : string) (db : Collection) :
  map snd
    (filter (fun p => String.eqb (Material.matCode (fst p)) code)
       (unwindUsageHistory db))
  = flat_map Material.usageHistory (filter (hasCode code) db).
Proof.
  unfold unwindUsageHistory. induction db as [|b db IH]; [reflexivity|].
  cbn [flat_map filter]. rewrite filter_app, map_app, IH.
  unfold hasCode at 2.
  destruct (String.eqb (Material.matCode b) code) eqn:E.
  - cbn [flat_map]. f_equal.
    induction (Material.usageHistory b) as [|u us IHu]; [reflexivity|].
    cbn [map filter fst]. rewrite E. cbn [map snd]. now rewrite IHu.
  - replace (filter _ (map (pair b) (Material.usageHistory b)))
      with (@nil (Material.t * Usage.t)); [reflexivity|].
    induction (Material.usageHistory b) as [|u us IHu]; [reflexivity|].
    cbn [map filter fst]. now rewrite E.
Qed.

Lemma sumZ_flat_usage (l : list Material.t) :
  sumZ (map Usage.quantity (flat_map Material.usageHistory l))
  = sumZ (map usedQuantity l).
Proof.
  induction l as [|b l IH]; [reflexivity|].
  cbn [flat_map map]. rewrite map_app, sumZ_app, sumZ_cons, IH. reflexivity.
Qed.

(** X9: GET /total-consumed lists once each material code that has a usage
    event, with the sum of the quantities of the usage events of its
    batches; a code whose batches were never used is not listed. *)
Theorem totalConsumed_per_code (db : Collection) :
  NoDup (map fst (totalConsumed db))
  /\ forall code t,
       In (code, t) (totalConsumed db)
       <-> (exists b, In b db /\ Material.matCode b = code
                      /\ Material.usageHistory b <> [])
           /\ t = codeSum usedQuantity code db.
Proof.
  assert (Hnd : NoDup (map fst (totalConsumed db)))
    by (apply groupSum_keys; constructor).
  split; [exact Hnd|]. intros code t.
  rewrite (groupTotal_In code t _ Hnd). unfold totalConsumed.
  rewrite groupSum_total.
  set (es := filter (fun p => String.eqb (Material.matCode (fst p)) code)
               (unwindUsageHistory db)).
  assert (Hsum : sumZ (map (fun p => Usage.quantity (snd p)) es)
                 = codeSum usedQuantity code db).
  { unfold codeSum. rewrite <- sumZ_flat_usage, <- unwind_filter_code.
    now rewrite map_map. }
  assert (Hes : es <> [] <-> exists b, In b db /\ Material.matCode b = code
                                       /\ Material.usageHistory b <> []).
  { split.
    - intros Hne. destruct es as [|[b u] es'] eqn:E; [congruence|].
      assert (Hin : In (b, u) es) by (rewrite E; now left).
      unfold es in Hin. apply filter_In in Hin. destruct Hin as [Hin Hc].
      unfold unwindUsageHistory in Hin. apply in_flat_map in Hin.
      destruct Hin as [d [Hd Hp]]. apply in_map_iff in Hp.
      destruct Hp as [u' [Hp Hu]]. injection Hp as -> ->.
      exists b. split; [exact Hd|]. split; [now apply String.eqb_eq|].
      intros E0. rewrite E0 in Hu. contradiction.
    - intros [b [Hb [Hc Hu]]] E.
      destruct (Material.usageHistory b) as [|u us] eqn:Eu; [congruence|].
      assert (Hin : In (b, u) es).
      { unfold es. apply filter_In. split.
        - unfold unwindUsageHistory. apply in_flat_map. exists b.
          split; [exact Hb|]. rewrite Eu. now left.
        - now apply String.eqb_eq. }
      rewrite E in Hin. contradiction. }
  rewrite <- Hsum. destruct es as [|e es'] eqn:E.
  - split; [discriminate|]. intros [Hex _]. apply Hes in Hex. congruence.
  - split.
    + intros H. injection H as <-. split; [|reflexivity].
      apply Hes. discriminate.
    + intros [_ ->]. reflexivity.
Qed.


(** ** Months side by side *)

Lemma daysInMonth_bounds (leap : bool) (mn : Z) : 28 <= daysInMonth leap mn <= 31.
Proof.
  unfold daysInMonth.
  repeat match goal with
         | |- context [match ?x with _ => _ end] => destruct x
         end; lia.
Qed.

(** The first day of a month is at least 28 days after the first day of
    the month before it. *)
Lemma MakeDay_later (year month : Z) (k : nat) :
  JS.MakeDay year month 1 + 28 * Z.of_nat k
  <= JS.MakeDay year (month + Z.of_nat k) 1.
Proof.
  induction k as [|k IH].
  - replace (month + Z.of_nat 0) with month by lia. lia.
  - pose proof (MakeDay_next_month year (month + Z.of_nat (S k))) as H.
    cbv zeta in H.
    replace (month + Z.of_nat (S k) - 1) with (month + Z.of_nat k) in H by lia.
    pose proof (daysInMonth_bounds
                  (JS.InLeapYear (year + (month + Z.of_nat k) / 12))
                  ((month + Z.of_nat k) mod 12)).
    lia.
Qed.

Lemma month_start_local (tza : JS.Date -> Z) (year month : Z) :
  fst (getMonthRange tza year month)
  = JS.MakeDay (JS.fullYear year) (month - 1) 1 * JS.msPerDay
    - tza (JS.MakeDay (JS.fullYear year) (month - 1) 1 * JS.msPerDay).
Proof.
  unfold getMonthRange, JS.newDate. cbn [fst].
  replace (JS.MakeDate (JS.MakeDay (JS.fullYear year) (month - 1) 1)
             (JS.MakeTime 0 0 0 0))
    with (JS.MakeDay (JS.fullYear year) (month - 1) 1 * JS.msPerDay)
    by (unfold JS.MakeDate, JS.MakeTime; lia).
  reflexivity.
Qed.

Lemma month_end_local (year month : Z) :
  JS.MakeDate (JS.MakeDay (JS.fullYear year) month 0) (JS.MakeTime 23 59 59 999)
  = JS.MakeDay (JS.fullYear year) month 1 * JS.msPerDay - 1.
Proof.
  unfold JS.MakeDate, JS.MakeTime, JS.MakeDay, JS.msPerDay. lia.
Qed.

(** X10: the ranges of the months side by side, in a zone whose offsets
    stay within a day, for a month that starts and ends at dates.  The
    start of the month is before its end.  When the offset in force at the
    last instant of the month is still in force one millisecond later, the
    range of the next month starts one millisecond after the end of this
    one, and a date within the range of the month is within the range of no
    later month. *)
Theorem month_ranges_tile (tza : JS.Date -> Z) (year month : Z) :
  let lastInstant :=
    JS.MakeDate (JS.MakeDay (JS.fullYear year) month 0)
      (JS.MakeTime 23 59 59 999) in
  (forall t, Z.abs (tza t) <= JS.msPerDay) ->
  tza (lastInstant + 1) = tza lastInstant ->
  JS.inTimeRange (fst (getMonthRange tza year month)) ->
  JS.inTimeRange (fst (getMonthRange tza year (month + 1))) ->
  fst (getMonthRange tza year month) < snd (getMonthRange tza year month)
  /\ fst (getMonthRange tza year (month + 1))
     = snd (getMonthRange tza year month) + 1
  /\ forall (later : Z) (d : JS.Date),
       month < later ->
       withinRange (fst (getMonthRange tza year month))
         (snd (getMonthRange tza year month)) d = true ->
       withinRange (fst (getMonthRange tza year later))
         (snd (getMonthRange tza year later)) d = false.
Proof.
  intros lastInstant Hday Hsame _ _.
  set (fy := JS.fullYear year) in *.
  assert (Hend : snd (getMonthRange tza year month)
                 = lastInstant - tza lastInstant) by reflexivity.
  assert (Hlast : lastInstant = JS.MakeDay fy month 1 * JS.msPerDay - 1)
    by apply month_end_local.
  assert (Hstart : forall m, fst (getMonthRange tza year m)
                             = JS.MakeDay fy (m - 1) 1 * JS.msPerDay
                               - tza (JS.MakeDay fy (m - 1) 1 * JS.msPerDay))
    by (intros m; apply month_start_local).
  assert (Hnext : fst (getMonthRange tza year (month + 1))
                  = snd (getMonthRange tza year month) + 1).
  { rewrite Hstart, Hend. replace (month + 1 - 1) with month by lia.
    replace (JS.MakeDay fy month 1 * JS.msPerDay) with (lastInstant + 1) by lia.
    rewrite Hsame. lia. }
  assert (Hbound : forall t, - JS.msPerDay <= tza t <= JS.msPerDay)
    by (intros t; specialize (Hday t); lia).
  split; [|split; [exact Hnext|]].
  - rewrite Hstart, Hend, Hlast.
    pose proof (MakeDay_later fy (month - 1) 1) as H.
    replace (month - 1 + Z.of_nat 1) with month in H by lia.
    pose proof (Hbound (JS.MakeDay fy (month - 1) 1 * JS.msPerDay)).
    pose proof (Hbound (JS.MakeDay fy month 1 * JS.msPerDay - 1)).
    unfold JS.msPerDay in *. lia.
  - intros later d Hlt Hin. rewrite withinRange_leb in *.
    apply andb_true_iff in Hin. destruct Hin as [_ Hd]. apply Z.leb_le in Hd.
    apply andb_false_iff. left. apply Z.leb_gt.
    destruct (Z.eq_dec later (month + 1)) as [->|Hne]; [lia|].
    rewrite Hstart. rewrite Hend, Hlast in Hd.
    pose proof (MakeDay_later fy month (Z.to_nat (later - 1 - month))) as H.
    replace (month + Z.of_nat (Z.to_nat (later - 1 - month))) with (later - 1)
      in H by lia.
    pose proof (Hbound (JS.MakeDay fy (later - 1) 1 * JS.msPerDay)).
    pose proof (Hbound (JS.MakeDay fy month 1 * JS.msPerDay - 1)).
    unfold JS.msPerDay in *. lia.
Qed.

Lemma month_ranges_tile_witness :
  fst (getMonthRange (fun _ => 19800000) 2024 3)
  = snd (getMonthRange (fun _ => 19800000) 2024 2) + 1.
Proof.
  refine (proj1 (proj2 (month_ranges_tile (fun _ => 19800000) 2024 2 _ _ _ _))).
  - intros t. vm_compute. discriminate.
  - reflexivity.
  - vm_compute. discriminate.
  - vm_compute. discriminate.
Defined.

(** * The one-time password *)

Lemma findUserById_saveUser (u : User.t) (users : Users) :
  (exists x, In x users /\ User._id x = User._id u) ->
  findUserById (User._id u) (saveUser u users) = Some u.
Proof.
  intros [x [Hx E]]. unfold findUserById, saveUser.
  induction users as [|y users IH]; [contradiction|]. cbn [map find].
  destruct (Nat.eqb (User._id y) (User._id u)) eqn:Ey.
  - now rewrite Nat.eqb_refl.
  - rewrite Ey. destruct Hx as [->|Hx]; [|now apply IH].
    apply Nat.eqb_neq in Ey. contradiction.
Qed.

Lemma findUserById_some (id : ObjectId) (users : Users) (u : User.t) :
  findUserById id users = Some u -> In u users /\ User._id u = id.
Proof.
  intros F. apply find_some in F. destruct F as [H E].
  apply Nat.eqb_eq in E. auto.
Qed.

(** A user holding a fresh code: what verify-otp answers. *)
Lemma verifyOtp_issued (now : JS.Date) (userId : ObjectId) (otp : string)
  (users : Users) (u : User.t) (c : string) (e : JS.Date) :
  findUserById userId users = Some u ->
  User.isActive u = true ->
  User.otp u = Otp.mk (Some c) (Some e) false ->
  (auth_status (fst (verifyOtp now true userId otp users)) = 200
   <-> otp = c /\ now <= e).
Proof.
  intros F Ha Ho. unfold verifyOtp. cbn [negb]. rewrite F, Ha. cbn [negb].
  unfold User.verifyOTP, User.expired, User.codeIs. rewrite Ho.
  cbn [Otp.verified Otp.expiresAt Otp.code].
  destruct (Z.ltb_spec e now) as [Hlt|Hge].
  - cbn. split; [discriminate | lia].
  - destruct (String.eqb_spec c otp) as [->|Hne]; cbn.
    + split; auto.
    + split; [discriminate|]. intros [H _]. congruence.
Qed.

(** X12: the window of a login.  After a login that answers 200, the answer
    carries the user and the code 1234, and a verify-otp for that user
    answers 200 exactly for that code and up to ten minutes after the
    login, the last millisecond included. *)
Theorem login_otp_window (now0 : JS.Date) (req : LoginRequest) (users : Users) :
  auth_status (fst (login now0 req users)) = 200 ->
  exists userId,
    auth_data (fst (login now0 req users))
    = OtpIssued userId "1234" (Some (now0 + 600000))
    /\ forall (now : JS.Date) (otp : string),
         auth_status
           (fst (verifyOtp now true userId otp (snd (login now0 req users))))
         = 200
         <-> otp = "1234"%string /\ now <= now0 + 600000.
Proof.
  unfold login. destruct (negb (login_valid req)); [discriminate|].
  destruct (findActiveByName (login_username req) users) as [user|] eqn:F;
    [|discriminate].
  destruct (negb (login_passwordValid req)); [discriminate|].
  cbn [User.generateOTP fst snd auth_status auth_data]. intros _.
  exists (User._id user). split; [reflexivity|]. intros now otp.
  apply find_some in F. destruct F as [Hin Hact].
  apply andb_true_iff in Hact. destruct Hact as [_ Hact].
  match goal with
  | |- context [saveUser ?u users] => set (user2 := u)
  end.
  apply (verifyOtp_issued now (User._id user) otp (saveUser user2 users) user2
           "1234" (now0 + 600000)).
  - apply (findUserById_saveUser user2 users). exists user. auto.
  - exact Hact.
  - reflexivity.
Qed.

Lemma login_otp_window_witness :
  exists userId,
    auth_data
      (fst (login 1000 (mkLogin true "asha" true None None None)
              [ashaWith Otp.unset]))
    = OtpIssued userId "1234" (Some (1000 + 600000)).
Proof.
  destruct (login_otp_window 1000 (mkLogin true "asha" true None None None)
              [ashaWith Otp.unset] eq_refl) as [userId [H _]].
  exists userId. exact H.
Defined.

Lemma verifyOtp_ok (now : JS.Date) (valid : bool) (userId : ObjectId)
  (otp : string) (users : Users) :
  auth_status (fst (verifyOtp now valid userId otp users)) = 200 ->
  exists user user2,
    In user users /\ User._id user = userId
    /\ User._id user2 = userId /\ User.isActive user2 = true
    /\ Otp.verified (User.otp user2) = true
    /\ snd (verifyOtp now valid userId otp users) = saveUser user2 users.
Proof.
  unfold verifyOtp. destruct (negb valid); [discriminate|].
  destruct (findUserById userId users) as [user|] eqn:F; [|discriminate].
  destruct (User.isActive user) eqn:Ha; cbn [negb]; [|discriminate].
  unfold User.verifyOTP.
  destruct (Otp.verified (User.otp user)); [discriminate|].
  destruct (User.expired now (User.otp user)); [discriminate|].
  destruct (User.codeIs otp (User.otp user)); [|discriminate].
  cbn [negb snd]. intros _.
  apply findUserById_some in F. destruct F as [Hin Hid].
  eexists user, _. repeat split; try reflexivity; try eassumption; cbn; auto.
Qed.

(** X13: a code logs in once.  After a verify-otp that answers 200, every
    further verify-otp for that user is refused with 401 and changes
    nothing, whatever the code and the time, until a new code is issued. *)
Theorem verifyOtp_once (now : JS.Date) (valid : bool) (userId : ObjectId)
  (otp : string) (users : Users) :
  auth_status (fst (verifyOtp now valid userId otp users)) = 200 ->
  forall (now' : JS.Date) (otp' : string),
    verifyOtp now' true userId otp' (snd (verifyOtp now valid userId otp users))
    = (InvalidOtp, snd (verifyOtp now valid userId otp users)).
Proof.
  intros Hok now' otp'.
  destruct (verifyOtp_ok now valid userId otp users Hok)
    as [user [user2 [Hin [Hid [Hid2 [Hact [Hver Hsnd]]]]]]].
  rewrite Hsnd.
  assert (Hf : findUserById userId (saveUser user2 users) = Some user2).
  { rewrite <- Hid2. apply findUserById_saveUser.
    exists user. split; [exact Hin | congruence]. }
  unfold verifyOtp. cbn [negb]. rewrite Hf, Hact. cbn [negb].
  unfold User.verifyOTP. rewrite Hver. reflexivity.
Qed.

Lemma verifyOtp_once_witness :
  verifyOtp 3000 true 5%nat "1234"
    (snd (verifyOtp 2000 true 5%nat "1234"
            [ashaFresh]))
  = (InvalidOtp,
     snd (verifyOtp 2000 true 5%nat "1234"
            [ashaFresh])).
Proof.
  apply verifyOtp_once. reflexivity.
Defined.

(** X14: resend-otp reopens the window.  For an active user, whatever the
    state of the earlier code (used, expired or cleared), after a resend
    verify-otp answers 200 exactly for 1234 and up to ten minutes after
    the resend. *)
Theorem resendOtp_reopens (now1 : JS.Date) (userId : ObjectId) (users : Users)
  (u : User.t) :
  findUserById userId users = Some u ->
  User.isActive u = true ->
  forall (now : JS.Date) (otp : string),
    auth_status
      (fst (verifyOtp now true userId otp
              (snd (resendOtp now1 true userId users))))
    = 200
    <-> otp = "1234"%string /\ now <= now1 + 600000.
Proof.
  intros F Ha now otp. unfold resendOtp. cbn [negb]. rewrite F, Ha.
  cbn [negb User.generateOTP snd].
  apply findUserById_some in F. destruct F as [Hin Hid].
  match goal with
  | |- context [saveUser ?x users] => set (u1 := x)
  end.
  assert (Hid1 : User._id u1 = userId) by (unfold u1; cbn; exact Hid).
  apply (verifyOtp_issued now userId otp (saveUser u1 users) u1
           "1234" (now1 + 600000)).
  - rewrite <- Hid1. apply findUserById_saveUser. exists u. split; congruence.
  - exact Ha.
  - reflexivity.
Qed.

Lemma resendOtp_reopens_witness :
  auth_status
    (fst (verifyOtp 800000 true 5%nat "1234"
            (snd (resendOtp 700000 true 5%nat
                    [ashaUsed]))))
  = 200.
Proof.
  apply (proj2 (resendOtp_reopens 700000 5%nat [ashaUsed] ashaUsed
                  eq_refl eq_refl 800000 "1234")).
  split; [reflexivity | vm_compute; discriminate].
Defined.

(** X15: logout clears the code.  After a logout of a user no verify-otp
    for that user answers 200, whatever the code and the time. *)
Theorem logout_invalidates (userId : ObjectId) (users : Users)
  (now : JS.Date) (valid : bool) (otp : string) :
  auth_status (fst (verifyOtp now valid userId otp (snd (logout userId users))))
  <> 200.
Proof.
  unfold logout. cbn [snd]. unfold verifyOtp.
  destruct (negb valid); [discriminate|].
  destruct (findUserById userId _) as [user|] eqn:F; [|discriminate].
  destruct (negb (User.isActive user)); [discriminate|].
  assert (Ho : User.otp user = Otp.unset).
  { apply find_some in F. destruct F as [Hin E]. apply in_map_iff in Hin.
    destruct Hin as [x [Hx _]].
    destruct (Nat.eqb (User._id x) userId) eqn:Ex.
    - now subst user.
    - subst user. congruence. }
  unfold User.verifyOTP, User.expired, User.codeIs. rewrite Ho. cbn.
  discriminate.
Qed.

(** * The attendance report *)







Section Sheets.

Variable projectId : ObjectId.
Variable employees : list Employee.t.





End Sheets.












(** * Marking attendance *)





(** * The user routes *)

Lemma NoDup_snoc_string (l : list string) (x : string) :
  NoDup l -> ~ In x l -> NoDup (l ++ [x]).
Proof.
  intros Hl Hx. induction l as [|y l IH]; cbn [app].
  - constructor; [intros []|constructor].
  - inversion Hl as [|? ? Hy Hrest]; subst. constructor.
    + intros Hin. apply in_app_or in Hin. destruct Hin as [Hin|[<-|[]]].
      * contradiction.
      * apply Hx. now left.
    + apply IH; [exact Hrest|]. intros Hin. apply Hx. now right.
Qed.

Lemma createUser_unique (env : Env) (req : CreateUserRequest) (users : Users) :
  NoDup (map User.username users) /\ NoDup (map User.phone users) ->
  NoDup (map User.username (usersAfter (createUser env req users) users))
  /\ NoDup (map User.phone (usersAfter (createUser env req users) users)).
Proof.
  intros [Hn Hp]. unfold createUser.
  destruct (negb (Nat.eqb (List.length users) 0) && negb (cu_admin req));
    [now split|].
  destruct (negb (cu_valid req)); [now split|].
  destruct (findByNameOrPhone (cu_username req) (cu_phone req) users) eqn:F;
    [now split|].
  destruct (existsb (Nat.eqb (cu_projectAssigned req)) (projects env));
    cbn [negb]; [|now split].
  destruct (negb (User.validate (newUser env req))
            || existsb (fun u => Nat.eqb (User._id u) (newId env)) users);
    [now split|].
  cbn [usersAfter snd]. rewrite !map_app. cbn [map newUser User.username User.phone].
  assert (Hfree : forall u, In u users ->
            User.username u <> cu_username req /\ User.phone u <> cu_phone req).
  { intros u Hu. apply (find_none _ _ F) in Hu. apply orb_false_iff in Hu.
    destruct Hu as [H1 H2]. now rewrite !String.eqb_neq in *. }
  split; apply NoDup_snoc_string; auto; intros Hin; apply in_map_iff in Hin;
    destruct Hin as [u [E Hu]]; destruct (Hfree u Hu); congruence.
Qed.

(** X19: user names and phone numbers stay unique.  Along every sequence of
    POST /api/users requests, from no user at all, no two users share a
    user name and no two share a phone number; and once a user exists, a
    request that adminAuth does not let through creates nothing. *)
Theorem users_stay_unique (rs : list (Env * CreateUserRequest)) :
  NoDup (map User.username (createAll rs []))
  /\ NoDup (map User.phone (createAll rs []))
  /\ forall env req,
       createAll rs [] <> [] -> cu_admin req = false ->
       createUser env req (createAll rs []) = Refused.
Proof.
  assert (H : forall users,
            NoDup (map User.username users) /\ NoDup (map User.phone users) ->
            NoDup (map User.username (createAll rs users))
            /\ NoDup (map User.phone (createAll rs users))).
  { unfold createAll. induction rs as [|[env req] rs IH]; intros users Hu;
      [exact Hu|].
    cbn [fold_left fst snd]. apply IH. now apply createUser_unique. }
  destruct (H [] (conj (NoDup_nil _) (NoDup_nil _))) as [H1 H2].
  split; [exact H1|]. split; [exact H2|].
  intros env req Hne Hadm. unfold createUser. rewrite Hadm.
  destruct (createAll rs []); [congruence | reflexivity].
Qed.

Lemma findUserById_map (g : User.t -> User.t) (id : ObjectId) (users : Users) :
  (forall u, User._id (g u) = User._id u) ->
  findUserById id (map g users) = option_map g (findUserById id users).
Proof.
  intros Hg. unfold findUserById. induction users as [|u users IH];
    [reflexivity|].
  cbn [map find]. rewrite Hg. now destruct (Nat.eqb (User._id u) id).
Qed.

(** X20: a deactivated user cannot complete a login.  After
    PUT /api/users/:id/status with [isActive] false for an existing user,
    verify-otp and resend-otp for that user answer 404 and change nothing,
    whatever code the user holds. *)
Theorem deactivated_user_blocked (id : ObjectId) (users : Users) (u : User.t)
  (now : JS.Date) (otp : string) :
  findUserById id users = Some u ->
  let users' := snd (setUserStatus id false users) in
  auth_status (fst (setUserStatus id false users)) = 200
  /\ verifyOtp now true id otp users' = (UserNotFound, users')
  /\ resendOtp now true id users' = (UserNotFound, users').
Proof.
  intros F users'. unfold users', setUserStatus. rewrite F. cbn [fst snd auth_status].
  split; [reflexivity|].
  set (g := fun x => if Nat.eqb (User._id x) id then User.setIsActive false x
                     else x).
  assert (Hg : forall x, User._id (g x) = User._id x).
  { intros x. unfold g. now destruct (Nat.eqb (User._id x) id). }
  assert (Hf : findUserById id (map g users) = Some (User.setIsActive false u)).
  { rewrite (findUserById_map g id users Hg), F. cbn [option_map]. unfold g.
    apply findUserById_some in F. destruct F as [_ E].
    apply Nat.eqb_eq in E. now rewrite E. }
  unfold verifyOtp, resendOtp. cbn [negb]. rewrite Hf. cbn. split; reflexivity.
Qed.

Lemma deactivated_user_blocked_witness :
  verifyOtp 2000 true 5%nat "1234" (snd (setUserStatus 5%nat false [ashaFresh]))
  = (UserNotFound, snd (setUserStatus 5%nat false [ashaFresh])).
Proof.
  exact (proj1 (proj2 (deactivated_user_blocked 5%nat [ashaFresh] ashaFresh
                         2000 "1234" eq_refl))).
Defined.

(** X21: refresh-all logs everybody out.  After PUT /api/users/refresh-all
    no user has a last login and no verify-otp answers 200, for any user,
    code and time, until a new code is issued. *)
Theorem refreshAll_invalidates (users : Users) :
  (forall u, In u (snd (refreshAll users)) ->
             User.lastLogin u = None /\ User.otp u = Otp.unset)
  /\ forall (now : JS.Date) (valid : bool) (id : ObjectId) (otp : string),
       auth_status (fst (verifyOtp now valid id otp (snd (refreshAll users))))
       <> 200.
Proof.
  assert (H : forall u, In u (snd (refreshAll users)) ->
                        User.lastLogin u = None /\ User.otp u = Otp.unset).
  { intros u Hu. cbn [refreshAll snd] in Hu. apply in_map_iff in Hu.
    destruct Hu as [x [<- _]]. now split. }
  split; [exact H|]. intros now valid id otp. unfold verifyOtp.
  destruct (negb valid); [discriminate|].
  destruct (findUserById id (snd (refreshAll users))) as [user|] eqn:F;
    [|discriminate].
  destruct (negb (User.isActive user)); [discriminate|].
  apply findUserById_some in F. destruct F as [Hin _].
  destruct (H user Hin) as [_ Ho].
  unfold User.verifyOTP, User.expired, User.codeIs. rewrite Ho. cbn.
  discriminate.
Qed.

(** ** Pages of users *)








